(** * Customer-service agent callbacks: rate limiter and tool guards

    A shallow embedding of
    [customer_service/shared_libraries/callbacks.ts],
    [customer_service/entities/customer.ts] and the two discount tools of
    [customer_service/tools/tools.ts], with the properties of the
    request-admission and session-guard layer proved about it. *)

From Stdlib Require Import ZArith QArith String Ascii List Bool Lia Lqa.
From stdpp Require Import base option gmap strings.

Import ListNotations.
Local Open Scope string_scope.
Local Open Scope Z_scope.

(** ** JavaScript values

    Tool arguments, tool results and session values are plain structured
    data.  Numbers are exact rationals (rounding of doubles, NaN and the
    infinities are outside the model; a conversion that yields NaN is an
    [option] that is [None]).  An object is the list of its own properties in
    [Object.entries] order.  Its prototype is not represented: every object
    stands for one with the ordinary prototype, and where the code changes
    the prototype of an object it builds (see [obj_put]) the model keeps what
    happens to the own properties. *)

#[warnings="-register-all"]
Inductive jsval : Type :=
  | VUndefined : jsval
  | VNull : jsval
  | VBool (b : bool) : jsval
  | VNum (q : Q) : jsval
  | VStr (s : string) : jsval
  | VArr (items : list jsval) : jsval
  | VObj (props : list (string * jsval)) : jsval.

Abbreviation obj := (list (string * jsval)).

(** Induction over the whole tree, through arrays and property lists. *)
Section jsval_induction.
Variable P : jsval -> Prop.
Hypothesis Hundef : P VUndefined.
Hypothesis Hnull : P VNull.
Hypothesis Hbool : forall b, P (VBool b).
Hypothesis Hnum : forall q, P (VNum q).
Hypothesis Hstr : forall s, P (VStr s).
Hypothesis Harr : forall items, Forall P items -> P (VArr items).
Hypothesis Hobj : forall props, Forall (fun kv => P (snd kv)) props -> P (VObj props).

Fixpoint jsval_tree_ind (v : jsval) : P v :=
  match v with
  | VUndefined => Hundef
  | VNull => Hnull
  | VBool b => Hbool b
  | VNum q => Hnum q
  | VStr s => Hstr s
  | VArr items =>
      Harr items
        ((fix go (l : list jsval) : Forall P l :=
            match l with
            | [] => List.Forall_nil P
            | x :: l' => @List.Forall_cons _ P x l' (jsval_tree_ind x) (go l')
            end) items)
  | VObj props =>
      Hobj props
        ((fix go (l : obj) : Forall (fun kv => P (snd kv)) l :=
            match l with
            | [] => List.Forall_nil _
            | kv :: l' =>
                @List.Forall_cons _ (fun kv => P (snd kv)) kv l'
                  (jsval_tree_ind (snd kv)) (go l')
            end) props)
  end.
End jsval_induction.

(** *** Numbers *)

Definition Qlt_bool (x y : Q) : bool := negb (Qle_bool y x).

(** *** Truthiness, property reads, strict equality *)

(** [!!v]: the falsy values are [undefined], [null], [false], [0] and the
    empty string. *)
Definition truthy (v : jsval) : bool :=
  match v with
  | VUndefined | VNull => false
  | VBool b => b
  | VNum q => negb (Qeq_bool q 0)
  | VStr s => negb (String.eqb s EmptyString)
  | VArr _ | VObj _ => true
  end.

(** [a || b] *)
Definition js_or (a b : jsval) : jsval := if truthy a then a else b.

Fixpoint obj_get (o : obj) (k : string) : option jsval :=
  match o with
  | [] => None
  | (k', v) :: o' => if String.eqb k' k then Some v else obj_get o' k
  end.

(** [k in o] for a plain data object. *)
Definition obj_has (o : obj) (k : string) : bool :=
  match obj_get o k with Some _ => true | None => false end.

(** [o[k] = v]: overwrite in place, or append a new property. *)
Fixpoint obj_set (o : obj) (k : string) (v : jsval) : obj :=
  match o with
  | [] => [(k, v)]
  | (k', v') :: o' =>
      if String.eqb k' k then (k', v) :: o' else (k', v') :: obj_set o' k v
  end.

(** [o[k] = v] on a plain object.  Under every name but one this writes the
    own property or adds it.  Under the name __proto__, on an object that
    has no own property of that name, the assignment goes to the accessor
    of [Object.prototype]: it sets the prototype (or does nothing, for a
    value that is neither an object nor [null]) and no own property
    appears. *)
Definition obj_put (o : obj) (k : string) (v : jsval) : obj :=
  if String.eqb k "__proto__" && negb (obj_has o "__proto__")
  then o else obj_set o k v.

(** [delete o[k]] *)
Fixpoint obj_delete (o : obj) (k : string) : obj :=
  match o with
  | [] => []
  | (k', v') :: o' =>
      if String.eqb k' k then obj_delete o' k else (k', v') :: obj_delete o' k
  end.

Definition obj_keys (o : obj) : list string := map fst o.

(** [Object.assign(target, source)] *)
Definition Object_assign (target source : obj) : obj :=
  fold_left (fun acc kv => obj_put acc (fst kv) (snd kv)) source target.

(** [v[k]] for a value that is neither [null] nor [undefined]: a data
    property of an object, [undefined] for everything else read here. *)
Definition get_prop (v : jsval) (k : string) : jsval :=
  match v with
  | VObj o => match obj_get o k with Some x => x | None => VUndefined end
  | _ => VUndefined
  end.

(** [a === b] between a value and a freshly built one: primitives compare
    by type and value, objects and arrays by identity, so two distinct
    objects are never equal. *)
Definition strict_eq (a b : jsval) : bool :=
  match a, b with
  | VUndefined, VUndefined => true
  | VNull, VNull => true
  | VBool x, VBool y => Bool.eqb x y
  | VNum x, VNum y => Qeq_bool x y
  | VStr x, VStr y => String.eqb x y
  | _, _ => false
  end.

(** *** Strings *)

(** [String.prototype.toLowerCase] on ASCII text: the 26 capitals are
    mapped, every other character is kept.  On text with other characters
    the built-in maps more than this definition does. *)
Definition lower_ascii (c : ascii) : ascii :=
  let n := nat_of_ascii c in
  if (andb (Nat.leb 65 n) (Nat.leb n 90)) then ascii_of_nat (n + 32) else c.

Fixpoint toLowerCase (s : string) : string :=
  match s with
  | EmptyString => EmptyString
  | String c s' => String (lower_ascii c) (toLowerCase s')
  end.

(** ** Argument normalizer *)

(** [lowercaseValue]: a non-null, non-array object is rebuilt property by
    property with [newDict[k] = lowercaseValue(v)], a string is lowercased,
    an array is mapped, anything else is returned as it is. *)
Fixpoint lowercaseValue (value : jsval) : jsval :=
  match value with
  | VObj props =>
      VObj (fold_left
              (fun newDict kv => obj_put newDict (fst kv) (lowercaseValue (snd kv)))
              props [])
  | VStr s => VStr (toLowerCase s)
  | VArr items => VArr (map lowercaseValue items)
  | _ => value
  end.

(** Rebuilding a property list over an accumulator, as the loop of
    [lowercaseValue] does with [f] the recursive call. *)
Definition rebuild (f : jsval -> jsval) (props acc : obj) : obj :=
  fold_left (fun newDict kv => obj_put newDict (fst kv) (f (snd kv))) props acc.

(** *** What the normalizer is compared with *)

(** The walk as the specification words it: every value of a mapping is
    normalized under its own key, every element of a sequence in its place. *)
Fixpoint normalize_spec (value : jsval) : jsval :=
  match value with
  | VObj props => VObj (map (fun kv => (fst kv, normalize_spec (snd kv))) props)
  | VStr s => VStr (toLowerCase s)
  | VArr items => VArr (map normalize_spec items)
  | _ => value
  end.

(** A property that an assignment creates as an own property: any but
    the one named __proto__. *)
Definition ordinary_key (kv : string * jsval) : bool :=
  negb (String.eqb (fst kv) "__proto__").

(** A string of ASCII characters. *)
Fixpoint ascii_only (s : string) : bool :=
  match s with
  | EmptyString => true
  | String c s' => Nat.ltb (nat_of_ascii c) 128 && ascii_only s'
  end.

(** A plain tree: within every object the property names are distinct, as
    they are in any JavaScript object, none of them is __proto__, and every
    string leaf is ASCII text. *)
Fixpoint plain_tree (v : jsval) : bool :=
  match v with
  | VObj props =>
      bool_decide (NoDup (obj_keys props))
      && forallb ordinary_key props
      && forallb (fun kv => plain_tree (snd kv)) props
  | VArr items => forallb plain_tree items
  | VStr s => ascii_only s
  | _ => true
  end.

(** The shape of a tree: the tree with every string leaf blanked.  Two trees
    of equal skeleton have the same constructors, the same keys in the same
    order, sequences of the same length, and the same non-string scalars. *)
Fixpoint skeleton (v : jsval) : jsval :=
  match v with
  | VObj props => VObj (map (fun kv => (fst kv, skeleton (snd kv))) props)
  | VArr items => VArr (map skeleton items)
  | VStr _ => VStr EmptyString
  | _ => v
  end.

(** The string leaves of a tree, left to right. *)
Fixpoint string_leaves (v : jsval) : list string :=
  match v with
  | VObj props => flat_map (fun kv => string_leaves (snd kv)) props
  | VArr items => flat_map string_leaves items
  | VStr s => [s]
  | _ => []
  end.

(** ** The JavaScript runtime

    The built-ins the callbacks call.  [JSON_parse] is [None] where
    [JSON.parse] throws a [SyntaxError]; [String_toNumber] is [None] where
    the conversion of a string to a number is [NaN]. *)
Class JsRuntime := {
  JSON_parse : string -> option jsval;
  JSON_stringify : jsval -> nat -> string;
  Number_toString : Q -> string;
  String_toNumber : string -> option Q
}.

Fixpoint join (sep : string) (l : list string) : string :=
  match l with
  | [] => EmptyString
  | [x] => x
  | x :: l' => x ++ sep ++ join sep l'
  end.

(** Whether [String(v)] throws a [TypeError].  Converting an object calls
    its [toString]; an own data property of that name hides the method of
    [Object.prototype], is not callable, and the conversion throws.  An
    array joins the conversions of its elements, [undefined] and [null]
    apart. *)
Fixpoint ToString_throws (v : jsval) : bool :=
  match v with
  | VObj props => obj_has props "toString"
  | VArr items =>
      existsb (fun x => match x with
                        | VUndefined | VNull => false
                        | _ => ToString_throws x
                        end) items
  | _ => false
  end.

Section Conversions.
Context {rt : JsRuntime}.

(** [String(v)], the conversion a template literal and [JSON.parse]
    apply to their operand, where it does not throw. *)
Fixpoint ToString (v : jsval) : string :=
  match v with
  | VUndefined => "undefined"
  | VNull => "null"
  | VBool true => "true"
  | VBool false => "false"
  | VNum q => Number_toString q
  | VStr s => s
  | VArr items =>
      join ","
        (map (fun x => match x with
                       | VUndefined | VNull => EmptyString
                       | _ => ToString x
                       end) items)
  | VObj _ => "[object Object]"
  end.

(** [Number(v)]; [None] is [NaN]. *)
Definition ToNumber (v : jsval) : option Q :=
  match v with
  | VUndefined => None
  | VNull => Some 0%Q
  | VBool b => Some (if b then 1%Q else 0%Q)
  | VNum q => Some q
  | VStr s => String_toNumber s
  | VArr _ | VObj _ => String_toNumber (ToString v)
  end.

(** [Number(v) <= bound]; a comparison with [NaN] is false. *)
Definition Number_le (v : jsval) (bound : Q) : bool :=
  match ToNumber v with
  | Some q => Qle_bool q bound
  | None => false
  end.
End Conversions.

(** ** Session state

    The session's key-value store with [has], [get] and [set]. *)
Abbreviation State := (gmap string jsval).

Definition state_has (s : State) (k : string) : bool :=
  bool_decide (is_Some (s !! k)).

Definition state_get (s : State) (k : string) : jsval :=
  default VUndefined (s !! k).

Definition state_set (s : State) (k : string) (v : jsval) : State :=
  <[k := v]> s.

(** [state.get<number>(k)]: declared [number | undefined].  The two rate
    keys are written by the rate limiter alone, always with numbers; a value
    of another type is outside the declared type and reads as [undefined]. *)
Definition state_get_number (s : State) (k : string) : option Q :=
  match s !! k with
  | Some (VNum q) => Some q
  | _ => None
  end.

(** [x || d] for [x : number | undefined]: zero is falsy. *)
Definition num_or (x : option Q) (d : Q) : Q :=
  match x with
  | Some q => if Qeq_bool q 0 then d else q
  | None => d
  end.

(** ** Rate limiter *)

Definition RATE_LIMIT_SECS : Q := 60%Q.
Definition RPM_QUOTA : Q := 10%Q.

(** The part of an outbound request the callback touches: a part carries a
    [text] property or not, a content carries [parts] or not. *)
Record Part := { part_text : option string }.
Record Content := { parts : option (list Part) }.
Record LlmRequest := { contents : option (list Content) }.

(** [if ('text' in part && part.text === '') part.text = ' '] *)
Definition blank_part (p : Part) : Part :=
  match part_text p with
  | Some t => if String.eqb t EmptyString then {| part_text := Some " " |} else p
  | None => p
  end.

Definition blank_content (c : Content) : Content :=
  match parts c with
  | Some ps => {| parts := Some (map blank_part ps) |}
  | None => c
  end.

(** What one invocation leaves behind: the request after the in-place
    rewrite, the session state, the argument of [setTimeout] in
    milliseconds when the caller was suspended, and the returned value
    ([None] is [undefined]: the request goes on to the model). *)
Record RateLimitResult := {
  rl_request : option LlmRequest;
  rl_state : State;
  rl_timeout_ms : option Q;
  rl_return : option jsval
}.

(** The value of [requestCount]: [(state.get('request_count') || 0) + 1]. *)
Definition requestCount (s : State) : Q :=
  (num_or (state_get_number s "request_count") 0 + 1)%Q.

(** The value of [elapsedSecs] at time [now]. *)
Definition elapsedSecs (s : State) (now : Q) : Q :=
  (now - num_or (state_get_number s "timer_start") now)%Q.

(** The value of [delay] at time [now]. *)
Definition delay (s : State) (now : Q) : Q :=
  (RATE_LIMIT_SECS - elapsedSecs s now + 1)%Q.

(** [rateLimitCallback].  [now_ms] is what [Date.now()] returns on entry
    and [wake_ms] what it returns at the reset, after the suspension if
    there was one; [Date.now() / 1000] is the rational [ms # 1000]. *)
Definition rateLimitCallback (now_ms wake_ms : Z)
    (llmRequest : option LlmRequest) (s : State) : RateLimitResult :=
  let skip := {| rl_request := llmRequest; rl_state := s;
                 rl_timeout_ms := None; rl_return := None |} in
  match llmRequest with
  | None => skip
  | Some r =>
      match contents r with
      | None => skip
      | Some cs =>
          let request' := Some {| contents := Some (map blank_content cs) |} in
          let now := (now_ms # 1000)%Q in
          if negb (state_has s "timer_start") then
            {| rl_request := request';
               rl_state :=
                 state_set (state_set s "timer_start" (VNum now))
                   "request_count" (VNum 1%Q);
               rl_timeout_ms := None;
               rl_return := None |}
          else if Qlt_bool RPM_QUOTA (requestCount s) then
            {| rl_request := request';
               rl_state :=
                 state_set (state_set s "timer_start" (VNum (wake_ms # 1000)))
                   "request_count" (VNum 1%Q);
               rl_timeout_ms :=
                 if Qlt_bool 0%Q (delay s now)
                 then Some (delay s now * 1000)%Q else None;
               rl_return := None |}
          else
            {| rl_request := request';
               rl_state := state_set s "request_count" (VNum (requestCount s));
               rl_timeout_ms := None;
               rl_return := None |}
      end
  end.

(** One invocation as the runtime makes it: its two clock readings and the
    request it carries. *)
Record Invocation := {
  inv_now_ms : Z;
  inv_wake_ms : Z;
  inv_request : option LlmRequest
}.

Definition invoke (s : State) (i : Invocation) : RateLimitResult :=
  rateLimitCallback (inv_now_ms i) (inv_wake_ms i) (inv_request i) s.

(** The session state after a sequence of completed invocations. *)
Definition run_invocations (s : State) (invs : list Invocation) : State :=
  fold_left (fun st i => rl_state (invoke st i)) invs s.

(** The suspensions of a sequence of invocations, one entry for each. *)
Fixpoint run_timeouts (s : State) (invs : list Invocation) : list (option Q) :=
  match invs with
  | [] => []
  | i :: invs' =>
      rl_timeout_ms (invoke s i) :: run_timeouts (rl_state (invoke s i)) invs'
  end.

(** An invocation is admitted to the window when its request carries
    contents; the callback returns at once for one that does not. *)
Definition admitted (i : Invocation) : bool :=
  match inv_request i with
  | Some r => match contents r with Some _ => true | None => false end
  | None => false
  end.

(** A session with an open window whose stored count is [n]. *)
Definition window_open (s : State) (n : Z) : Prop :=
  (exists t, s !! "timer_start" = Some (VNum t))
  /\ s !! "request_count" = Some (VNum (inject_Z n)).

(** ** Customer entity *)

Record Customer := {
  account_number : jsval;
  customer_id : jsval;
  customer_first_name : jsval;
  customer_last_name : jsval;
  email : jsval;
  phone_number : jsval;
  customer_start_date : jsval;
  years_as_customer : jsval;
  billing_address : jsval;
  purchase_history : jsval;
  loyalty_points : jsval;
  preferred_store : jsval;
  communication_preferences : jsval;
  garden_profile : jsval;
  scheduled_appointments : jsval
}.

(** [new Customer(data)]: reading a property of [null] or [undefined]
    throws a [TypeError] ([None]); of any other value it yields the property
    or [undefined]. *)
Definition Customer_new (data : jsval) : option Customer :=
  match data with
  | VUndefined | VNull => None
  | _ =>
      Some {| account_number := get_prop data "account_number";
              customer_id := get_prop data "customer_id";
              customer_first_name := get_prop data "customer_first_name";
              customer_last_name := get_prop data "customer_last_name";
              email := get_prop data "email";
              phone_number := get_prop data "phone_number";
              customer_start_date := get_prop data "customer_start_date";
              years_as_customer := get_prop data "years_as_customer";
              billing_address := get_prop data "billing_address";
              purchase_history := get_prop data "purchase_history";
              loyalty_points := get_prop data "loyalty_points";
              preferred_store := get_prop data "preferred_store";
              communication_preferences :=
                get_prop data "communication_preferences";
              garden_profile := get_prop data "garden_profile";
              scheduled_appointments :=
                js_or (get_prop data "scheduled_appointments") (VObj []) |}
  end.

(** The instance as an object: its properties in the order the constructor
    assigns them. *)
Definition Customer_object (c : Customer) : jsval :=
  VObj [ ("account_number", account_number c);
         ("customer_id", customer_id c);
         ("customer_first_name", customer_first_name c);
         ("customer_last_name", customer_last_name c);
         ("email", email c);
         ("phone_number", phone_number c);
         ("customer_start_date", customer_start_date c);
         ("years_as_customer", years_as_customer c);
         ("billing_address", billing_address c);
         ("purchase_history", purchase_history c);
         ("loyalty_points", loyalty_points c);
         ("preferred_store", preferred_store c);
         ("communication_preferences", communication_preferences c);
         ("garden_profile", garden_profile c);
         ("scheduled_appointments", scheduled_appointments c) ].

(** [Customer.getCustomer]: the dummy record, built from the object literal
    of the source; [None] is [null]. *)
Definition getCustomer (currentCustomerId : string) : option Customer :=
  let item (product_id name : string) (quantity : Q) :=
    VObj [ ("product_id", VStr product_id); ("name", VStr name);
           ("quantity", VNum quantity) ] in
  let purchase (date : string) (items : list jsval) (total_amount : Q) :=
    VObj [ ("date", VStr date); ("items", VArr items);
           ("total_amount", VNum total_amount) ] in
  Customer_new
    (VObj
       [ ("customer_id", VStr currentCustomerId);
         ("account_number", VStr "428765091");
         ("customer_first_name", VStr "Alex");
         ("customer_last_name", VStr "Johnson");
         ("email", VStr "alex.johnson@example.com");
         ("phone_number", VStr "+1-702-555-1212");
         ("customer_start_date", VStr "2022-06-10");
         ("years_as_customer", VNum 2%Q);
         ("billing_address",
           VObj [ ("street", VStr "123 Main St"); ("city", VStr "Anytown");
                  ("state", VStr "CA"); ("zip", VStr "12345") ]);
         ("purchase_history",
           VArr
             [ purchase "2023-03-05"
                 [ item "fert-111" "All-Purpose Fertilizer" 1%Q;
                   item "trowel-222" "Gardening Trowel" 1%Q ]
                 (3598 # 100)%Q;
               purchase "2023-07-12"
                 [ item "seeds-333" "Tomato Seeds (Variety Pack)" 2%Q;
                   item "pots-444" "Terracotta Pots (6-inch)" 4%Q ]
                 (425 # 10)%Q;
               purchase "2024-01-20"
                 [ item "gloves-555" "Gardening Gloves (Leather)" 1%Q;
                   item "pruner-666" "Pruning Shears" 1%Q ]
                 (5525 # 100)%Q ]);
         ("loyalty_points", VNum 133%Q);
         ("preferred_store", VStr "Anytown Garden Store");
         ("communication_preferences",
           VObj [ ("email", VBool true); ("sms", VBool false);
                  ("push_notifications", VBool true) ]);
         ("garden_profile",
           VObj [ ("type", VStr "backyard"); ("size", VStr "medium");
                  ("sun_exposure", VStr "full sun");
                  ("soil_type", VStr "unknown");
                  ("interests", VArr [VStr "flowers"; VStr "vegetables"]) ]);
         ("scheduled_appointments", VObj []) ]).

(** ** Discount tools *)

(** [approveDiscount]: the direct approval, which has a limit. *)
Definition approveDiscount (discountType : string) (value : Q) (reason : string)
    : obj :=
  if Qlt_bool 10%Q value then
    [ ("status", VStr "rejected");
      ("message", VStr "discount too large. Must be 10 or less.") ]
  else [ ("status", VStr "ok") ].

(** [syncAskForApproval]: the manager's answer, which has none. *)
Definition syncAskForApproval (discountType : string) (value : Q)
    (reason : string) : obj :=
  [ ("status", VStr "approved") ].

(** The names under which [function_tools.ts] registers the tools with the
    agent. *)
Definition registered_tools : list string :=
  [ "sendCallCompanionLink"; "approveDiscount"; "syncAskForApproval";
    "updateSalesforceCrm"; "accessCartInformation"; "modifyCart";
    "getProductRecommendations"; "checkProductAvailability";
    "schedulePlantingService"; "getAvailablePlantingTimes";
    "sendCareInstructions"; "generateQrCode" ].

(** ** Tool guards *)

Definition NO_PROFILE_MESSAGE : string :=
  "No customer profile selected. Please select a profile.".
Definition EMPTY_PROFILE_MESSAGE : string := "Customer profile is empty.".
Definition PARSE_MESSAGE : string :=
  "Customer profile couldn't be parsed. Please reload the customer data.".

Definition APPROVED_RESULT : obj :=
  [ ("status", VStr "approved");
    ("message", VStr "You can approve this discount; no manager needed.") ].

Definition MODIFY_CART_RESULT : obj :=
  [ ("result", VStr "I have added and removed the requested items.") ].

(** [Object.entries] of what [lowercaseValue] returns for an object. *)
Definition entries_of (v : jsval) : obj :=
  match v with
  | VObj o => o
  | _ => []
  end.

(** The working copy of the arguments and the returned value of
    [beforeTool] ([None] is [undefined]: the tool is to run). *)
Record BeforeToolResult := {
  bt_args : obj;
  bt_return : option obj
}.

(** The state, console output and returned value of [afterTool]. *)
Record AfterToolResult := {
  at_state : State;
  at_console : list string;
  at_return : option obj
}.

Section Callbacks.
Context {rt : JsRuntime}.

(** [customer.toJson()] *)
Definition toJson (c : Customer) : string :=
  JSON_stringify (Customer_object c) 4.

(** The message of the mismatch branch. *)
Definition mismatch_message (customerId bound : jsval) : string :=
  "You cannot use the tool with customer_id " ++ ToString customerId
    ++ ", only for " ++ ToString bound ++ ".".

(** [validateCustomerId]: the pair [[valid, message]].  Whatever is thrown
    inside the [try] block, by [JSON.parse] and the conversion of its
    operand, by the constructor, or by the conversion of the two ids in the
    template of the mismatch message, ends in the parse message. *)
Definition validateCustomerId (customerId : jsval) (sessionState : State)
    : bool * option string :=
  if negb (state_has sessionState "customer_profile") then
    (false, Some NO_PROFILE_MESSAGE)
  else
    let profileJson := state_get sessionState "customer_profile" in
    if negb (truthy profileJson) then (false, Some EMPTY_PROFILE_MESSAGE)
    else if ToString_throws profileJson then (false, Some PARSE_MESSAGE)
    else
      match JSON_parse (ToString profileJson) with
      | None => (false, Some PARSE_MESSAGE)
      | Some profileData =>
          match Customer_new profileData with
          | None => (false, Some PARSE_MESSAGE)
          | Some c =>
              if strict_eq customerId (customer_id c) then (true, None)
              else if ToString_throws customerId
                      || ToString_throws (customer_id c)
              then (false, Some PARSE_MESSAGE)
              else (false, Some (mismatch_message customerId (customer_id c)))
          end
      end.

(** The profile bound to a session: what the stored serialization
    deserializes to, when there is one and it does. *)
Definition bound_profile (s : State) : option Customer :=
  match s !! "customer_profile" with
  | Some profileJson =>
      if truthy profileJson && negb (ToString_throws profileJson) then
        match JSON_parse (ToString profileJson) with
        | Some profileData => Customer_new profileData
        | None => None
        end
      else None
  | None => None
  end.

(** The verdict of the guard on arguments [a]: it is consulted only when
    they carry a customer_id. *)
Definition guard_verdict (a : obj) (s : State) : bool * option string :=
  if obj_has a "customer_id"
  then validateCustomerId (get_prop (VObj a) "customer_id") s
  else (true, None).

(** [beforeTool] *)
Definition beforeTool (tool_name : string) (args : obj) (s : State)
    : BeforeToolResult :=
  let lowercasedArgs := entries_of (lowercaseValue (VObj args)) in
  let emptied := fold_left obj_delete (obj_keys args) args in
  let args := Object_assign emptied lowercasedArgs in
  let guard :=
    if obj_has args "customer_id" then
      match validateCustomerId (get_prop (VObj args) "customer_id") s with
      | (false, Some err) =>
          if negb (String.eqb err EmptyString)
          then Some [ ("error", VStr err) ] else None
      | _ => None
      end
    else None in
  match guard with
  | Some payload => {| bt_args := args; bt_return := Some payload |}
  | None =>
      if String.eqb tool_name "sync_ask_for_approval"
         && negb (strict_eq (get_prop (VObj args) "value") VUndefined)
         && Number_le (get_prop (VObj args) "value") 10%Q
      then {| bt_args := args; bt_return := Some APPROVED_RESULT |}
      else if String.eqb tool_name "modify_cart"
              && strict_eq (get_prop (VObj args) "items_added") (VBool true)
              && strict_eq (get_prop (VObj args) "items_removed") (VBool true)
      then {| bt_args := args; bt_return := Some MODIFY_CART_RESULT |}
      else {| bt_args := args; bt_return := None |}
  end.

(** [afterTool]: the cart is not touched, the two branches only write a
    line to the console. *)
Definition afterTool (tool_name : string) (args : obj) (s : State)
    (toolResponse : jsval) : AfterToolResult :=
  let line (name status : string) :=
    if String.eqb tool_name name
       && truthy toolResponse
       && strict_eq (get_prop toolResponse "status") (VStr status)
    then [ "Applying discount to the cart" ] else [] in
  {| at_state := s;
     at_console := line "sync_ask_for_approval" "approved"
                     ++ line "approve_discount" "ok";
     at_return := None |}.

(** [beforeAgent] *)
Definition beforeAgent (s : State) : State :=
  if negb (state_has s "customer_profile") then
    match getCustomer "123" with
    | Some customer => state_set s "customer_profile" (VStr (toJson customer))
    | None => s
    end
  else s.

(** *** Dispatch of one tool call

    Modelled from the spec: the agent runtime's handling of one tool call,
    which belongs to the framework and not to this repository.  A value
    returned by [beforeTool] takes the place of the tool's result and the
    tool is not run; [afterTool] sees the result and replaces it only by
    returning one. *)
Record DispatchResult := {
  dr_invoked : bool;
  dr_args : obj;
  dr_result : jsval;
  dr_console : list string;
  dr_state : State
}.

Definition dispatch (execute : obj -> jsval) (tool_name : string)
    (args : obj) (s : State) : DispatchResult :=
  let before := beforeTool tool_name args s in
  let invoked := negb (bool_decide (is_Some (bt_return before))) in
  let response :=
    match bt_return before with
    | Some payload => VObj payload
    | None => execute (bt_args before)
    end in
  let after := afterTool tool_name (bt_args before) s response in
  {| dr_invoked := invoked;
     dr_args := bt_args before;
     dr_result := match at_return after with
                  | Some r => VObj r
                  | None => response
                  end;
     dr_console := at_console after;
     dr_state := at_state after |}.
End Callbacks.

(** ** A reference runtime

    Decimal numbers and JSON text as [JSON.stringify] prints it, enough to
    run the callbacks on concrete sessions.  The theorems below hold for
    every runtime; this one is used to evaluate them. *)
Module Reference.

Definition quote : ascii := "034"%char.
Definition backslash : ascii := "092"%char.
Definition newline : ascii := "010"%char.

Definition digit_char (d : Z) : ascii := ascii_of_nat (48 + Z.to_nat d).

(** The decimal digits of a natural number, most significant first. *)
Fixpoint digits_of (fuel : nat) (n : Z) (acc : list ascii) : list ascii :=
  match fuel with
  | O => acc
  | S fuel' =>
      let acc' := digit_char (n mod 10) :: acc in
      if n / 10 =? 0 then acc' else digits_of fuel' (n / 10) acc'
  end.

Definition Z_digits (n : Z) : list ascii :=
  digits_of (S (Z.to_nat (Z.log2 n))) n [].

(** The digits after the decimal point of [r / d], for [0 <= r < d]. *)
Fixpoint fraction_digits (fuel : nat) (r d : Z) : list ascii :=
  match fuel with
  | O => []
  | S fuel' =>
      if r =? 0 then []
      else digit_char (r * 10 / d) :: fraction_digits fuel' (r * 10 mod d) d
  end.

(** [String(q)] in plain decimal notation, up to seventeen digits after the
    point.  The exponent notation the built-in switches to from 1e21 on, and
    below 1e-6, is not produced. *)
Definition number_to_string (q : Q) : string :=
  let n := Z.abs (Qnum q) in
  let d := Zpos (Qden q) in
  let sign := if Qnum q <? 0 then ["-"%char] else [] in
  let frac := fraction_digits 17 (n mod d) d in
  string_of_list_ascii
    (sign ++ Z_digits (n / d)
       ++ match frac with [] => [] | _ => "."%char :: frac end).

Definition is_digit (c : ascii) : bool :=
  let n := nat_of_ascii c in Nat.leb 48 n && Nat.leb n 57.

Definition digit_value (c : ascii) : Z := Z.of_nat (nat_of_ascii c) - 48.

(** Reads a run of digits: the value so far, how many were read, the rest. *)
Fixpoint read_digits (cs : list ascii) (acc : Z) (count : nat)
    : Z * nat * list ascii :=
  match cs with
  | c :: cs' =>
      if is_digit c then read_digits cs' (acc * 10 + digit_value c) (S count)
      else (acc, count, cs)
  | [] => (acc, count, cs)
  end.

(** digits[.digits][(e|E)[+|-]digits], without sign.  The JSON grammar
    ([strict]) wants a digit on both sides of the point and no leading zero;
    the conversion of a string to a number wants a digit on one side. *)
Definition read_unsigned (strict : bool) (cs : list ascii)
    : option (Q * list ascii) :=
  let '(int_part, n_int, cs2) := read_digits cs 0 O in
  let leading_zero :=
    match cs with
    | c :: _ => Ascii.eqb c "0" && Nat.ltb 1 n_int
    | [] => false
    end in
  let '(num, n_frac, cs3) :=
    match cs2 with
    | "."%char :: r =>
        let '(all, n_frac, r') := read_digits r int_part O in
        if Nat.eqb n_frac 0 && (strict || Nat.eqb n_int 0)
        then (int_part, O, cs2) else (all, n_frac, r')
    | _ => (int_part, O, cs2)
    end in
  if Nat.eqb n_int 0 && Nat.eqb n_frac 0 then None
  else if strict && (Nat.eqb n_int 0 || leading_zero) then None
  else
    let '(exp, cs4) :=
      match cs3 with
      | c :: r =>
          if Ascii.eqb c "e" || Ascii.eqb c "E" then
            let '(eneg, r1) :=
              match r with
              | "-"%char :: r' => (true, r')
              | "+"%char :: r' => (false, r')
              | _ => (false, r)
              end in
            let '(e, n_e, r2) := read_digits r1 0 O in
            if Nat.eqb n_e 0 then (0, cs3)
            else ((if eneg then - e else e), r2)
          else (0, cs3)
      | [] => (0, cs3)
      end in
    let scale := exp - Z.of_nat n_frac in
    let q :=
      if 0 <=? scale then inject_Z (num * 10 ^ scale)
      else Qred (num # Z.to_pos (10 ^ (- scale))) in
    Some (q, cs4).

Definition negate (r : option (Q * list ascii)) : option (Q * list ascii) :=
  match r with
  | Some (q, rest) => Some (Qopp q, rest)
  | None => None
  end.

(** A JSON number: [-]unsigned. *)
Definition read_number (cs : list ascii) : option (Q * list ascii) :=
  match cs with
  | "-"%char :: r => negate (read_unsigned true r)
  | _ => read_unsigned true cs
  end.

Definition is_space (c : ascii) : bool :=
  let n := nat_of_ascii c in
  Nat.eqb n 32 || Nat.eqb n 9 || Nat.eqb n 10 || Nat.eqb n 13.

Fixpoint skip_ws (cs : list ascii) : list ascii :=
  match cs with
  | c :: cs' => if is_space c then skip_ws cs' else cs
  | [] => []
  end.

(** [Number(s)] for a decimal literal: [+|-]unsigned between white space;
    the blank string is zero.  Literals in another base and [Infinity] are
    not read. *)
Definition string_to_number (s : string) : option Q :=
  match skip_ws (list_ascii_of_string s) with
  | [] => Some 0%Q
  | cs =>
      let r :=
        match cs with
        | "-"%char :: cs' => negate (read_unsigned false cs')
        | "+"%char :: cs' => read_unsigned false cs'
        | _ => read_unsigned false cs
        end in
      match r with
      | Some (q, rest) =>
          match skip_ws rest with [] => Some q | _ => None end
      | None => None
      end
  end.

(** *** Printing *)

Definition hex_char (n : nat) : ascii :=
  if Nat.ltb n 10 then ascii_of_nat (48 + n) else ascii_of_nat (87 + n).

Definition escape_char (c : ascii) : list ascii :=
  let n := nat_of_ascii c in
  if Nat.eqb n 34 then [backslash; quote]
  else if Nat.eqb n 92 then [backslash; backslash]
  else if Nat.eqb n 8 then [backslash; "b"%char]
  else if Nat.eqb n 9 then [backslash; "t"%char]
  else if Nat.eqb n 10 then [backslash; "n"%char]
  else if Nat.eqb n 12 then [backslash; "f"%char]
  else if Nat.eqb n 13 then [backslash; "r"%char]
  else if Nat.ltb n 32 then
    [backslash; "u"%char; "0"%char; "0"%char;
     hex_char (Nat.div n 16); hex_char (Nat.modulo n 16)]
  else [c].

Definition quote_string (s : string) : string :=
  string_of_list_ascii
    (quote :: flat_map escape_char (list_ascii_of_string s) ++ [quote]).

Definition line_break : string := String newline EmptyString.

(** The members of a bracketed group, one per line when there is a gap. *)
Definition bracket (open close gap indent : string) (members : list string)
    : string :=
  match members with
  | [] => open ++ close
  | _ =>
      if String.eqb gap EmptyString then open ++ join "," members ++ close
      else
        open ++ line_break ++ indent ++ gap
          ++ join ("," ++ line_break ++ indent ++ gap) members
          ++ line_break ++ indent ++ close
  end.

Fixpoint stringify (gap indent : string) (v : jsval) {struct v} : string :=
  match v with
  | VUndefined | VNull => "null"
  | VBool true => "true"
  | VBool false => "false"
  | VNum q => number_to_string q
  | VStr s => quote_string s
  | VArr items =>
      bracket "[" "]" gap indent (map (stringify gap (indent ++ gap)) items)
  | VObj props =>
      bracket "{" "}" gap indent
        (flat_map (fun kv =>
                     match snd kv with
                     | VUndefined => []
                     | _ =>
                         [ quote_string (fst kv)
                             ++ (if String.eqb gap EmptyString
                                 then ":" else ": ")
                             ++ stringify gap (indent ++ gap) (snd kv) ]
                     end) props)
  end.

Fixpoint spaces (n : nat) : string :=
  match n with
  | O => EmptyString
  | S n' => String " " (spaces n')
  end.

(** [JSON.stringify(v, null, indent)] *)
Definition json_stringify (v : jsval) (indent : nat) : string :=
  stringify (spaces (Nat.min indent 10)) EmptyString v.

(** *** Parsing *)

Definition hex_value (c : ascii) : option nat :=
  let n := nat_of_ascii c in
  if Nat.leb 48 n && Nat.leb n 57 then Some (n - 48)%nat
  else if Nat.leb 97 n && Nat.leb n 102 then Some (n - 87)%nat
  else if Nat.leb 65 n && Nat.leb n 70 then Some (n - 55)%nat
  else None.

Definition unescape (c : ascii) : option ascii :=
  let n := nat_of_ascii c in
  if Nat.eqb n 34 then Some quote
  else if Nat.eqb n 92 then Some backslash
  else if Nat.eqb n 47 then Some "/"%char
  else if Nat.eqb n 98 then Some (ascii_of_nat 8)
  else if Nat.eqb n 116 then Some (ascii_of_nat 9)
  else if Nat.eqb n 110 then Some (ascii_of_nat 10)
  else if Nat.eqb n 102 then Some (ascii_of_nat 12)
  else if Nat.eqb n 114 then Some (ascii_of_nat 13)
  else None.

(** The characters of a string literal after its opening quote; an escape
    [\u00XY] stands for one character. *)
Fixpoint read_string (cs : list ascii) (acc : list ascii) {struct cs}
    : option (string * list ascii) :=
  match cs with
  | [] => None
  | c :: cs' =>
      if Ascii.eqb c quote then Some (string_of_list_ascii (rev acc), cs')
      else if Ascii.eqb c backslash then
        match cs' with
        | e :: cs'' =>
            if Ascii.eqb e "u" then
              match cs'' with
              | a :: b :: x :: y :: rest =>
                  match hex_value a, hex_value b, hex_value x, hex_value y with
                  | Some 0%nat, Some 0%nat, Some h, Some l =>
                      read_string rest (ascii_of_nat (16 * h + l) :: acc)
                  | _, _, _, _ => None
                  end
              | _ => None
              end
            else
              match unescape e with
              | Some ch => read_string cs'' (ch :: acc)
              | None => None
              end
        | [] => None
        end
      else if Nat.ltb (nat_of_ascii c) 32 then None
      else read_string cs' (c :: acc)
  end.

Fixpoint strip_prefix (p cs : list ascii) : option (list ascii) :=
  match p, cs with
  | [], _ => Some cs
  | a :: p', c :: cs' => if Ascii.eqb a c then strip_prefix p' cs' else None
  | _ :: _, [] => None
  end.

Definition literal (word : string) (v : jsval) (cs : list ascii)
    : option (jsval * list ascii) :=
  match strip_prefix (list_ascii_of_string word) cs with
  | Some rest => Some (v, rest)
  | None => None
  end.

Fixpoint parse_value (fuel : nat) (cs : list ascii) {struct fuel}
    : option (jsval * list ascii) :=
  match fuel with
  | O => None
  | S fuel' =>
      match skip_ws cs with
      | [] => None
      | c :: rest =>
          if Ascii.eqb c "{" then
            match skip_ws rest with
            | "}"%char :: rest' => Some (VObj [], rest')
            | _ =>
                match parse_members fuel' rest with
                | Some (props, rest') => Some (VObj props, rest')
                | None => None
                end
            end
          else if Ascii.eqb c "[" then
            match skip_ws rest with
            | "]"%char :: rest' => Some (VArr [], rest')
            | _ =>
                match parse_elements fuel' rest with
                | Some (items, rest') => Some (VArr items, rest')
                | None => None
                end
            end
          else if Ascii.eqb c quote then
            match read_string rest [] with
            | Some (s, rest') => Some (VStr s, rest')
            | None => None
            end
          else if Ascii.eqb c "t" then literal "true" (VBool true) (c :: rest)
          else if Ascii.eqb c "f" then literal "false" (VBool false) (c :: rest)
          else if Ascii.eqb c "n" then literal "null" VNull (c :: rest)
          else
            match read_number (c :: rest) with
            | Some (q, rest') => Some (VNum q, rest')
            | None => None
            end
      end
  end
with parse_elements (fuel : nat) (cs : list ascii) {struct fuel}
    : option (list jsval * list ascii) :=
  match fuel with
  | O => None
  | S fuel' =>
      match parse_value fuel' cs with
      | Some (v, rest) =>
          match skip_ws rest with
          | ","%char :: rest' =>
              match parse_elements fuel' rest' with
              | Some (vs, rest'') => Some (v :: vs, rest'')
              | None => None
              end
          | "]"%char :: rest' => Some ([v], rest')
          | _ => None
          end
      | None => None
      end
  end
with parse_members (fuel : nat) (cs : list ascii) {struct fuel}
    : option (obj * list ascii) :=
  match fuel with
  | O => None
  | S fuel' =>
      match skip_ws cs with
      | c :: rest =>
          if Ascii.eqb c quote then
            match read_string rest [] with
            | Some (k, rest1) =>
                match skip_ws rest1 with
                | ":"%char :: rest2 =>
                    match parse_value fuel' rest2 with
                    | Some (v, rest3) =>
                        match skip_ws rest3 with
                        | ","%char :: rest4 =>
                            match parse_members fuel' rest4 with
                            | Some (props, rest5) =>
                                Some ((k, default v (obj_get props k))
                                        :: obj_delete props k, rest5)
                            | None => None
                            end
                        | "}"%char :: rest4 => Some ([(k, v)], rest4)
                        | _ => None
                        end
                    | None => None
                    end
                | _ => None
                end
            | None => None
            end
          else None
      | [] => None
      end
  end.

(** [JSON.parse(text)]; [None] where the text is not accepted. *)
Definition json_parse (text : string) : option jsval :=
  let cs := list_ascii_of_string text in
  match parse_value (2 * length cs + 2) cs with
  | Some (v, rest) =>
      match skip_ws rest with
      | [] => Some v
      | _ => None
      end
  | None => None
  end.

#[export] Instance runtime : JsRuntime := {
  JSON_parse := json_parse;
  JSON_stringify := json_stringify;
  Number_toString := number_to_string;
  String_toNumber := string_to_number
}.
End Reference.

(** ** The other tools *)

(** [modifyCart]: the mock answer, which flags that items were added and
    removed. *)
Definition modifyCart (customerId : string) (itemsToAdd itemsToRemove : list jsval)
    : obj :=
  [ ("status", VStr "success");
    ("message", VStr "Cart updated successfully.");
    ("items_added", VBool true);
    ("items_removed", VBool true) ].

Definition recommendation (product_id name description : string) : jsval :=
  VObj [ ("product_id", VStr product_id); ("name", VStr name);
         ("description", VStr description) ].

(** [getProductRecommendations] *)
Definition getProductRecommendations (plantType customerId : string) : obj :=
  if String.eqb (toLowerCase plantType) "petunias" then
    [ ("recommendations",
       VArr [ recommendation "soil-456" "Bloom Booster Potting Mix"
                "Provides extra nutrients that Petunias love.";
              recommendation "fert-789" "Flower Power Fertilizer"
                "Specifically formulated for flowering annuals." ]) ]
  else
    [ ("recommendations",
       VArr [ recommendation "soil-123" "Standard Potting Soil"
                "A good all-purpose potting soil.";
              recommendation "fert-456" "General Purpose Fertilizer"
                "Suitable for a wide variety of plants." ]) ].

(** [timeRange.split('-')[0]]: the text before the first dash, all of it
    when there is none. *)
Fixpoint before_dash (s : string) : string :=
  match s with
  | EmptyString => EmptyString
  | String c s' =>
      if Ascii.eqb c "-" then EmptyString else String c (before_dash s')
  end.

(** [schedulePlantingService]; [appointment_id] is what [uuidv4()]
    returns. *)
Definition schedulePlantingService (customerId date timeRange details : string)
    (appointment_id : string) : obj :=
  let startTimeStr := before_dash timeRange in
  let confirmationTimeStr := (date ++ " " ++ startTimeStr ++ ":00")%string in
  [ ("status", VStr "success");
    ("appointment_id", VStr appointment_id);
    ("date", VStr date);
    ("time", VStr timeRange);
    ("confirmation_time", VStr confirmationTimeStr) ].

Definition QR_PERCENTAGE_MESSAGE : string :=
  "cannot generate a QR code for this amount, must be 10% or less".
Definition QR_FIXED_MESSAGE : string :=
  "cannot generate a QR code for this amount, must be 20 or less".

(** What [generateQrCode] does: it returns an error string, returns the
    answer, or lets the [RangeError] of [toISOString()] escape. *)
Inductive QrAnswer : Type :=
  | QrRefused (message : string) : QrAnswer
  | QrCode (answer : obj) : QrAnswer
  | QrRangeError : QrAnswer.

(** [generateQrCode].  [expirationDate days] is the day the runtime's
    calendar gives for today plus [days], as [toISOString().split('T')[0]]
    prints it; it is [None] where the date is out of the calendar's range
    and [toISOString()] throws. *)
Definition generateQrCode (customerId : string) (discountValue : Q)
    (discountType : string) (expirationDays : Q)
    (expirationDate : Q -> option string) : QrAnswer :=
  if (String.eqb discountType EmptyString || String.eqb discountType "percentage")
     && Qlt_bool 10 discountValue
  then QrRefused QR_PERCENTAGE_MESSAGE
  else if String.eqb discountType "fixed" && Qlt_bool 20 discountValue
  then QrRefused QR_FIXED_MESSAGE
  else
    match expirationDate expirationDays with
    | Some day =>
        QrCode [ ("status", VStr "success");
                 ("qr_code_data", VStr "MOCK_QR_CODE_DATA");
                 ("expiration_date", VStr day) ]
    | None => QrRangeError
    end.

(** ** Configuration *)

(** [getEnv]: [env[key] || defaultValue]; the environment maps names to
    strings. *)
Definition getEnv (env : gmap string string) (key defaultValue : string)
    : string :=
  match env !! key with
  | Some v => if String.eqb v EmptyString then defaultValue else v
  | None => defaultValue
  end.

Record AgentModel := { am_name : string; am_model : string }.

Record Config := {
  agentSettings : AgentModel;
  appName : string;
  CLOUD_PROJECT : string;
  CLOUD_LOCATION : string;
  GENAI_USE_VERTEXAI : string;
  API_KEY : string
}.

(** [new Config()] in environment [env]. *)
Definition Config_new (env : gmap string string) : Config :=
  {| agentSettings :=
       {| am_name := "customer_service_agent"; am_model := "gemini-2.5-flash" |};
     appName := "customer_service_app";
     CLOUD_PROJECT := getEnv env "GOOGLE_CLOUD_PROJECT" "my_project";
     CLOUD_LOCATION := getEnv env "GOOGLE_CLOUD_LOCATION" "us-central1";
     GENAI_USE_VERTEXAI := getEnv env "GOOGLE_GENAI_USE_VERTEXAI" "1";
     API_KEY := getEnv env "GOOGLE_API_KEY" "GOOGLE_API_KEY" |}.

(** ** Auxiliary notions for the properties *)

(** A part whose text is the empty string. *)
Definition part_blank (p : Part) : bool :=
  match part_text p with
  | Some t => String.eqb t EmptyString
  | None => false
  end.

(** No part of the contents has the empty string for text. *)
Definition contents_filled (cs : list Content) : Prop :=
  Forall (fun c => forall ps, parts c = Some ps ->
                   Forall (fun p => part_blank p = false) ps) cs.

(** The character [c] occurs in [s]. *)
Fixpoint mentions (c : ascii) (s : string) : bool :=
  match s with
  | EmptyString => false
  | String c' s' => Ascii.eqb c' c || mentions c s'
  end.

Definition CART_LINE : string := "Applying discount to the cart".

(** ** Sample data *)

Definition sample_args : jsval :=
  VObj [ ("customer_id", VStr "ABC-123");
         ("Items", VArr [ VStr "Rose Bush"; VNum 3%Q; VNull; VBool true ]);
         ("details", VObj [ ("Note", VStr "LEAVE at Door") ]) ].

(** What [JSON.parse] makes of the text { "__proto__": { "x": "Y" } }: an
    object with one own property, named __proto__. *)
Definition proto_args : jsval :=
  VObj [ ("__proto__", VObj [ ("x", VStr "Y") ]) ].

(** The calendar of the examples, read on the first of January 2026 at the
    two offsets the examples use: thirty days ahead is the 31st of January,
    and a thousand million days ahead is past the last date a [Date] holds,
    where [toISOString()] throws. *)
Definition sample_calendar (days : Q) : option string :=
  if Qeq_bool days 30 then Some "2026-01-31"%string else None.

Definition sample_request : LlmRequest :=
  {| contents :=
       Some [ {| parts := Some [ {| part_text := Some "hello" |};
                                 {| part_text := Some EmptyString |};
                                 {| part_text := None |} ] |};
              {| parts := None |} ] |}.

(** A window that began at second 100 and has admitted ten requests. *)
Definition full_window : State :=
  <["request_count" := VNum 10%Q]> (<["timer_start" := VNum 100%Q]> ∅).

(** A window that began at second 100 and has admitted four requests. *)
Definition open_window : State :=
  <["request_count" := VNum 4%Q]> (<["timer_start" := VNum 100%Q]> ∅).

Definition sample_invocation (now_ms : Z) : Invocation :=
  {| inv_now_ms := now_ms; inv_wake_ms := now_ms;
     inv_request := Some sample_request |}.

(** A fresh session after the bootstrap hook, under the reference runtime. *)
Definition bound_session : State := @beforeAgent Reference.runtime ∅.

(** A session whose profile key holds the empty string. *)
Definition empty_profile_session : State :=
  <["customer_profile" := VStr EmptyString]> ∅.

Definition discount_args (value : Q) : obj :=
  [ ("discountType", VStr "Percentage"); ("value", VNum value);
    ("reason", VStr "Loyal customer") ].

(** A session whose profile key holds the JSON text of [null]. *)
Definition null_profile_session : State :=
  <["customer_profile" := VStr "null"]> ∅.

(** * Properties *)

Local Open Scope list_scope.

(** ** Numbers and strings *)

Lemma Qlt_bool_iff x y : Qlt_bool x y = true <-> (x < y)%Q.
Proof.
  unfold Qlt_bool. rewrite negb_true_iff. split.
  - intros H. apply Qnot_le_lt. intros Hle.
    apply Qle_bool_iff in Hle. congruence.
  - intros H. destruct (Qle_bool y x) eqn:E; [|reflexivity].
    apply Qle_bool_iff in E. exfalso. exact (Qlt_not_le _ _ H E).
Qed.

Lemma Qlt_bool_false_iff x y : Qlt_bool x y = false <-> (y <= x)%Q.
Proof.
  unfold Qlt_bool. rewrite negb_false_iff. apply Qle_bool_iff.
Qed.

Lemma lower_ascii_idem c : lower_ascii (lower_ascii c) = lower_ascii c.
Proof. destruct c as [[] [] [] [] [] [] [] []]; reflexivity. Qed.

Lemma toLowerCase_idem s : toLowerCase (toLowerCase s) = toLowerCase s.
Proof.
  induction s as [|c s IH]; simpl; [reflexivity|].
  now rewrite lower_ascii_idem, IH.
Qed.

Lemma toLowerCase_length s : String.length (toLowerCase s) = String.length s.
Proof. induction s as [|c s IH]; simpl; congruence. Qed.

(** ** Objects *)

Lemma obj_set_fresh o k v :
  k ∉ obj_keys o -> obj_set o k v = o ++ [(k, v)].
Proof.
  induction o as [|[k' v'] o IH]; simpl; intros Hk; [reflexivity|].
  destruct (String.eqb_spec k' k) as [->|Hne].
  - exfalso. apply Hk. left.
  - f_equal. apply IH. intros Hin. apply Hk. now right.
Qed.

Lemma obj_keys_set o k v :
  obj_keys (obj_set o k v)
  = if bool_decide (k ∈ obj_keys o) then obj_keys o else obj_keys o ++ [k].
Proof.
  induction o as [|[k' v'] o IH]; simpl; [reflexivity|].
  destruct (String.eqb_spec k' k) as [->|Hne]; simpl.
  - rewrite bool_decide_eq_true_2 by left. reflexivity.
  - rewrite IH. destruct (bool_decide_reflect (k ∈ obj_keys o)) as [Hin|Hnin].
    + rewrite bool_decide_eq_true_2 by now right. reflexivity.
    + rewrite bool_decide_eq_false_2; [reflexivity|].
      intros Hin. apply elem_of_cons in Hin as [->|Hin]; congruence.
Qed.

Lemma obj_set_NoDup o k v :
  NoDup (obj_keys o) -> NoDup (obj_keys (obj_set o k v)).
Proof.
  intros Hnd. rewrite obj_keys_set. case_bool_decide; [assumption|].
  apply NoDup_app. split; [assumption|]. split.
  - intros x Hx Hx'. apply list_elem_of_singleton in Hx'. congruence.
  - apply NoDup_singleton.
Qed.

Lemma obj_set_values (P : jsval -> Prop) o k v :
  Forall (fun kv => P (snd kv)) o -> P v ->
  Forall (fun kv => P (snd kv)) (obj_set o k v).
Proof.
  intros Ho Hv. induction Ho as [|[k' v'] o Hkv Ho IH]; simpl.
  - repeat constructor. exact Hv.
  - destruct (String.eqb k' k); constructor; assumption.
Qed.

Lemma obj_has_keys (o : obj) k : obj_has o k = true <-> k ∈ obj_keys o.
Proof.
  unfold obj_has. induction o as [|[k' v'] o IH]; simpl.
  - split; [discriminate|]. intros H. now apply not_elem_of_nil in H.
  - destruct (String.eqb_spec k' k) as [->|Hne].
    + split; [intros _; left|reflexivity].
    + rewrite IH. split; [now right|].
      intros H. apply elem_of_cons in H as [->|H]; [congruence|exact H].
Qed.

Lemma obj_put_ordinary o k v :
  k <> "__proto__"%string -> obj_put o k v = obj_set o k v.
Proof.
  intros Hk. unfold obj_put. apply String.eqb_neq in Hk. now rewrite Hk.
Qed.

Lemma obj_put_proto o v :
  "__proto__"%string ∉ obj_keys o -> obj_put o "__proto__" v = o.
Proof.
  intros Hk. unfold obj_put.
  destruct (obj_has o "__proto__") eqn:E; [|reflexivity].
  apply obj_has_keys in E. contradiction.
Qed.

Lemma obj_put_NoDup o k v :
  NoDup (obj_keys o) -> NoDup (obj_keys (obj_put o k v)).
Proof.
  intros Hnd. unfold obj_put.
  destruct (String.eqb k "__proto__" && negb (obj_has o "__proto__"));
    [assumption|now apply obj_set_NoDup].
Qed.

Lemma obj_put_values (P : jsval -> Prop) o k v :
  Forall (fun kv => P (snd kv)) o -> P v ->
  Forall (fun kv => P (snd kv)) (obj_put o k v).
Proof.
  intros Ho Hv. unfold obj_put.
  destruct (String.eqb k "__proto__" && negb (obj_has o "__proto__"));
    [assumption|now apply obj_set_values].
Qed.

Lemma obj_put_no_proto o k v :
  "__proto__"%string ∉ obj_keys o ->
  "__proto__"%string ∉ obj_keys (obj_put o k v).
Proof.
  intros Ho. destruct (String.eqb_spec k "__proto__") as [->|Hne].
  - now rewrite obj_put_proto.
  - rewrite obj_put_ordinary by exact Hne. rewrite obj_keys_set.
    case_bool_decide; [exact Ho|].
    intros Hin. apply elem_of_app in Hin as [Hin|Hin]; [contradiction|].
    apply list_elem_of_singleton in Hin. congruence.
Qed.

Lemma rebuild_NoDup f props acc :
  NoDup (obj_keys acc) -> NoDup (obj_keys (rebuild f props acc)).
Proof.
  revert acc. induction props as [|kv props IH]; simpl; intros acc Hacc.
  - exact Hacc.
  - apply IH. now apply obj_put_NoDup.
Qed.

Lemma rebuild_values (P : jsval -> Prop) f props acc :
  Forall (fun kv => P (snd kv)) acc ->
  Forall (fun kv => P (f (snd kv))) props ->
  Forall (fun kv => P (snd kv)) (rebuild f props acc).
Proof.
  revert acc. induction props as [|kv props IH]; simpl; intros acc Hacc Hp.
  - exact Hacc.
  - inversion Hp; subst. apply IH; [|assumption].
    now apply obj_put_values.
Qed.

Lemma rebuild_no_proto f props acc :
  "__proto__"%string ∉ obj_keys acc ->
  "__proto__"%string ∉ obj_keys (rebuild f props acc).
Proof.
  revert acc. induction props as [|kv props IH]; simpl; intros acc Hacc.
  - exact Hacc.
  - apply IH. now apply obj_put_no_proto.
Qed.

(** With distinct names the loop appends the properties in their order,
    the one named __proto__ left out. *)
Lemma rebuild_distinct f props acc :
  NoDup (obj_keys acc ++ obj_keys props) ->
  "__proto__"%string ∉ obj_keys acc ->
  rebuild f props acc
  = acc ++ map (fun kv => (fst kv, f (snd kv))) (List.filter ordinary_key props).
Proof.
  revert acc. induction props as [|[k v] props IH]; simpl; intros acc Hnd Hp.
  - now rewrite app_nil_r.
  - apply NoDup_app in Hnd as (Hacc & Hdisj & Hprops).
    apply NoDup_cons in Hprops as [Hk Hprops].
    assert (Hfresh : k ∉ obj_keys acc).
    { intros Hin. eapply Hdisj; [exact Hin|]. left. }
    change (fold_left _ props ?a) with (rebuild f props a).
    unfold ordinary_key at 1. simpl.
    destruct (String.eqb_spec k "__proto__") as [->|Hne]; simpl.
    + rewrite obj_put_proto by exact Hp. apply IH; [|exact Hp].
      apply NoDup_app. split; [assumption|]. split; [|assumption].
      intros x Hx Hx'. eapply Hdisj; [exact Hx|]. now right.
    + rewrite obj_put_ordinary by exact Hne.
      rewrite obj_set_fresh by exact Hfresh. rewrite IH.
      * now rewrite <- app_assoc.
      * unfold obj_keys. rewrite map_app. simpl. rewrite <- app_assoc. simpl.
        apply NoDup_app. split; [assumption|]. split.
        -- intros x Hx Hx'. eapply Hdisj; eauto.
        -- apply NoDup_cons. split; assumption.
      * unfold obj_keys. rewrite map_app. simpl.
        intros Hin. apply elem_of_app in Hin as [Hin|Hin]; [contradiction|].
        apply list_elem_of_singleton in Hin. congruence.
Qed.

Lemma filter_ordinary_id (o : obj) :
  "__proto__"%string ∉ obj_keys o -> List.filter ordinary_key o = o.
Proof.
  induction o as [|[k v] o IH]; simpl; intros Hp; [reflexivity|].
  unfold ordinary_key at 1. simpl.
  destruct (String.eqb_spec k "__proto__") as [->|Hne]; simpl.
  - exfalso. apply Hp. left.
  - f_equal. apply IH. intros Hin. apply Hp. now right.
Qed.

Lemma forallb_ordinary_keys (o : obj) :
  forallb ordinary_key o = true -> "__proto__"%string ∉ obj_keys o.
Proof.
  induction o as [|[k v] o IH]; simpl; intros H Hin.
  - now apply not_elem_of_nil in Hin.
  - apply andb_true_iff in H as [Hk Ho]. unfold ordinary_key in Hk. simpl in Hk.
    apply negb_true_iff, String.eqb_neq in Hk.
    apply elem_of_cons in Hin as [Hin|Hin]; [congruence|now apply IH].
Qed.

Lemma obj_get_filter (o : obj) k :
  k <> "__proto__"%string -> obj_get (List.filter ordinary_key o) k = obj_get o k.
Proof.
  intros Hk. induction o as [|[k' v] o IH]; [reflexivity|].
  cbn [List.filter obj_get]. unfold ordinary_key at 1. cbn [fst].
  destruct (String.eqb_spec k' "__proto__") as [->|Hne]; cbn [negb obj_get].
  - destruct (String.eqb_spec "__proto__" k) as [E|_]; [congruence|exact IH].
  - destruct (String.eqb k' k); [reflexivity|exact IH].
Qed.

Lemma obj_get_map (f : jsval -> jsval) (o : obj) k :
  obj_get (map (fun kv => (fst kv, f (snd kv))) o) k = f <$> obj_get o k.
Proof.
  induction o as [|[k' v] o IH]; simpl; [reflexivity|].
  destruct (String.eqb k' k); [reflexivity|exact IH].
Qed.

Lemma obj_has_map (f : jsval -> jsval) (o : obj) k :
  obj_has (map (fun kv => (fst kv, f (snd kv))) o) k = obj_has o k.
Proof. unfold obj_has. rewrite obj_get_map. now destruct (obj_get o k). Qed.

Lemma lowercaseValue_obj props :
  lowercaseValue (VObj props) = VObj (rebuild lowercaseValue props []).
Proof. reflexivity. Qed.

Lemma lowercaseValue_obj_distinct props :
  NoDup (obj_keys props) ->
  lowercaseValue (VObj props)
  = VObj (map (fun kv => (fst kv, lowercaseValue (snd kv)))
            (List.filter ordinary_key props)).
Proof.
  intros Hnd. rewrite lowercaseValue_obj, rebuild_distinct; [reflexivity| |].
  - exact Hnd.
  - apply not_elem_of_nil.
Qed.

(** ** Argument normalizer *)

Lemma lowercaseValue_normalize_spec (x : jsval) :
  plain_tree x = true -> lowercaseValue x = normalize_spec x.
Proof.
  induction x as [| | | | |items IH|props IH] using jsval_tree_ind;
    try reflexivity; intros Hwf; simpl in Hwf.
  - simpl. f_equal. apply map_ext_in. intros v Hv.
    rewrite List.Forall_forall in IH. apply IH; [exact Hv|].
    rewrite forallb_forall in Hwf. now apply Hwf.
  - apply andb_true_iff in Hwf as [Hwf Hall].
    apply andb_true_iff in Hwf as [Hnd Hord].
    apply bool_decide_eq_true_1 in Hnd.
    rewrite lowercaseValue_obj_distinct by exact Hnd.
    rewrite filter_ordinary_id by now apply forallb_ordinary_keys.
    simpl. f_equal. apply map_ext_in. intros kv Hkv.
    rewrite List.Forall_forall in IH. rewrite forallb_forall in Hall.
    now rewrite IH by auto.
Qed.

Lemma skeleton_normalize_spec (x : jsval) :
  skeleton (normalize_spec x) = skeleton x.
Proof.
  induction x as [| | | | |items IH|props IH] using jsval_tree_ind;
    try reflexivity; simpl; f_equal; rewrite map_map; apply map_ext_in.
  - intros v Hv. rewrite List.Forall_forall in IH. now apply IH.
  - intros kv Hkv. rewrite List.Forall_forall in IH. simpl.
    now rewrite IH.
Qed.

Lemma string_leaves_normalize_spec (x : jsval) :
  string_leaves (normalize_spec x) = map toLowerCase (string_leaves x).
Proof.
  induction x as [| | | | |items IH|props IH] using jsval_tree_ind;
    try reflexivity; simpl.
  - induction IH as [|v items Hv _ IHl]; simpl; [reflexivity|].
    now rewrite map_app, Hv, IHl.
  - induction IH as [|kv props Hkv _ IHl]; simpl; [reflexivity|].
    now rewrite map_app, Hkv, IHl.
Qed.

(** Idempotence needs no assumption on the tree. *)
Lemma lowercaseValue_idem (x : jsval) :
  lowercaseValue (lowercaseValue x) = lowercaseValue x.
Proof.
  induction x as [| | | |s|items IH|props IH] using jsval_tree_ind;
    try reflexivity.
  - simpl. now rewrite toLowerCase_idem.
  - simpl. f_equal. rewrite map_map. apply map_ext_in. intros v Hv.
    rewrite List.Forall_forall in IH. now apply IH.
  - rewrite lowercaseValue_obj.
    assert (Hnd : NoDup (obj_keys (rebuild lowercaseValue props []))).
    { apply rebuild_NoDup. constructor. }
    assert (Hnp : "__proto__"%string
                  ∉ obj_keys (rebuild lowercaseValue props [])).
    { apply rebuild_no_proto. apply not_elem_of_nil. }
    assert (Hfix : Forall (fun kv => lowercaseValue (snd kv) = snd kv)
                     (rebuild lowercaseValue props [])).
    { apply (rebuild_values (fun v => lowercaseValue v = v)).
      - constructor.
      - exact IH. }
    rewrite lowercaseValue_obj_distinct by exact Hnd.
    rewrite filter_ordinary_id by exact Hnp.
    f_equal. rewrite <- (map_id (rebuild lowercaseValue props [])) at 2.
    apply map_ext_in. intros [k v] Hkv. simpl.
    rewrite List.Forall_forall in Hfix. f_equal. exact (Hfix (k, v) Hkv).
Qed.

Lemma lower_ascii_ascii (c : ascii) :
  Nat.ltb (nat_of_ascii (lower_ascii c)) 128 = Nat.ltb (nat_of_ascii c) 128.
Proof. destruct c as [[] [] [] [] [] [] [] []]; reflexivity. Qed.

Lemma ascii_only_toLowerCase (s : string) :
  ascii_only (toLowerCase s) = ascii_only s.
Proof.
  induction s as [|c s IH]; [reflexivity|].
  cbn [toLowerCase ascii_only]. now rewrite lower_ascii_ascii, IH.
Qed.

(** The walk of the specification takes plain trees to plain trees. *)
Lemma normalize_spec_plain (x : jsval) :
  plain_tree x = true -> plain_tree (normalize_spec x) = true.
Proof.
  induction x as [| | | |s|items IH|props IH] using jsval_tree_ind;
    try reflexivity; intros Hp; simpl in Hp.
  - simpl. now rewrite ascii_only_toLowerCase.
  - simpl. rewrite forallb_forall in Hp. rewrite List.Forall_forall in IH.
    apply forallb_forall. intros v Hv. apply in_map_iff in Hv.
    destruct Hv as (u & <- & Hu). auto.
  - apply andb_true_iff in Hp as [Hp Hall].
    apply andb_true_iff in Hp as [Hnd Hord].
    rewrite forallb_forall in Hall, Hord. rewrite List.Forall_forall in IH.
    apply bool_decide_eq_true_1 in Hnd.
    simpl. apply andb_true_iff. split; [apply andb_true_iff; split|].
    + apply bool_decide_eq_true_2. unfold obj_keys. rewrite map_map.
      exact Hnd.
    + apply forallb_forall. intros kv Hkv. apply in_map_iff in Hkv.
      destruct Hkv as (u & <- & Hu). exact (Hord u Hu).
    + apply forallb_forall. intros kv Hkv. apply in_map_iff in Hkv.
      destruct Hkv as (u & <- & Hu). simpl. auto.
Qed.

(** C3: the normalizer does not keep every key.  On the arguments that
    [JSON.parse] makes of the text { "__proto__": { "x": "Y" } }, an object
    whose one own property is named __proto__, the loop of [lowercaseValue]
    assigns under that name.  The assignment sets the prototype of the new
    object and creates no own property: the object returned has no own
    property, where the input has one and the walk of the specification
    keeps it, with the string under it lowercased.  The same happens at any
    depth, and no object that [lowercaseValue] returns has an own property
    of that name. *)
Theorem lowercaseValue_loses_proto_key :
  obj_keys (entries_of proto_args) = [ "__proto__"%string ]
  /\ obj_keys (entries_of (lowercaseValue proto_args)) = []
  /\ normalize_spec proto_args
     = VObj [ ("__proto__", VObj [ ("x", VStr "y") ]) ]
  /\ lowercaseValue proto_args <> normalize_spec proto_args
  /\ skeleton (lowercaseValue proto_args) <> skeleton proto_args
  /\ obj_keys
       (entries_of
          (get_prop
             (lowercaseValue
                (VObj [ ("customer_id", VStr "123"); ("filter", proto_args) ]))
             "filter")) = []
  /\ (forall props,
        obj_has (entries_of (lowercaseValue (VObj props))) "__proto__" = false).
Proof.
  split; [reflexivity|]. split; [reflexivity|]. split; [reflexivity|].
  split; [discriminate|]. split; [discriminate|]. split; [reflexivity|].
  intros props. rewrite lowercaseValue_obj. cbn [entries_of].
  destruct (obj_has (rebuild lowercaseValue props []) "__proto__") eqn:E;
    [|reflexivity].
  apply obj_has_keys in E. exfalso. revert E.
  apply rebuild_no_proto, not_elem_of_nil.
Qed.

(** ** Rate limiter *)

Lemma state_has_true (s : State) k : state_has s k = true <-> is_Some (s !! k).
Proof. unfold state_has. apply bool_decide_eq_true. Qed.

Lemma state_has_false (s : State) k : state_has s k = false <-> s !! k = None.
Proof.
  unfold state_has. rewrite bool_decide_eq_false. split.
  - intros H. destruct (s !! k) eqn:E; [|reflexivity]. exfalso. apply H. eauto.
  - intros -> [x Hx]. discriminate.
Qed.

(** The two quantities of the callback, read off a state that stores
    numbers: the count is the stored count plus one, the elapsed time the
    distance to the stored start of the window. *)
Lemma requestCount_stored (s : State) (n : Z) :
  s !! "request_count" = Some (VNum (inject_Z n)) -> n <> 0 ->
  requestCount s = inject_Z (n + 1).
Proof.
  intros Hc Hn. unfold requestCount, state_get_number. rewrite Hc. simpl.
  assert (Hz : Qeq_bool (inject_Z n) 0 = false).
  { unfold Qeq_bool. simpl. apply Z.eqb_neq. lia. }
  rewrite Hz. unfold Qplus, inject_Z. simpl. now rewrite Z.mul_1_r.
Qed.

Lemma elapsedSecs_stored (s : State) (now t0 : Q) :
  s !! "timer_start" = Some (VNum t0) -> ~ (t0 == 0)%Q ->
  elapsedSecs s now = (now - t0)%Q.
Proof.
  intros Ht Hz. unfold elapsedSecs, state_get_number. rewrite Ht. simpl.
  destruct (Qeq_bool t0 0) eqn:E; [|reflexivity].
  apply Qeq_bool_iff in E. contradiction.
Qed.

Lemma rateLimitCallback_skip now_ms wake_ms llmRequest (s : State) :
  llmRequest = None \/ (exists r, llmRequest = Some r /\ contents r = None) ->
  rateLimitCallback now_ms wake_ms llmRequest s
  = {| rl_request := llmRequest; rl_state := s;
       rl_timeout_ms := None; rl_return := None |}.
Proof.
  intros [->|(r & -> & Hr)]; unfold rateLimitCallback; [reflexivity|].
  now rewrite Hr.
Qed.

Lemma rateLimitCallback_first now_ms wake_ms r cs (s : State) :
  contents r = Some cs -> s !! "timer_start" = None ->
  rateLimitCallback now_ms wake_ms (Some r) s
  = {| rl_request := Some {| contents := Some (map blank_content cs) |};
       rl_state := <["request_count" := VNum 1%Q]>
                     (<["timer_start" := VNum (now_ms # 1000)%Q]> s);
       rl_timeout_ms := None; rl_return := None |}.
Proof.
  intros Hr Ht. unfold rateLimitCallback. rewrite Hr.
  apply state_has_false in Ht. now rewrite Ht.
Qed.

Lemma rateLimitCallback_within now_ms wake_ms r cs (s : State) :
  contents r = Some cs -> is_Some (s !! "timer_start") ->
  (requestCount s <= RPM_QUOTA)%Q ->
  rateLimitCallback now_ms wake_ms (Some r) s
  = {| rl_request := Some {| contents := Some (map blank_content cs) |};
       rl_state := <["request_count" := VNum (requestCount s)]> s;
       rl_timeout_ms := None; rl_return := None |}.
Proof.
  intros Hr Ht Hle. unfold rateLimitCallback. rewrite Hr.
  apply state_has_true in Ht. rewrite Ht. simpl.
  apply Qlt_bool_false_iff in Hle. now rewrite Hle.
Qed.

Lemma rateLimitCallback_exceeded now_ms wake_ms r cs (s : State) :
  contents r = Some cs -> is_Some (s !! "timer_start") ->
  (RPM_QUOTA < requestCount s)%Q ->
  rateLimitCallback now_ms wake_ms (Some r) s
  = {| rl_request := Some {| contents := Some (map blank_content cs) |};
       rl_state := <["request_count" := VNum 1%Q]>
                     (<["timer_start" := VNum (wake_ms # 1000)%Q]> s);
       rl_timeout_ms :=
         if Qlt_bool 0 (delay s (now_ms # 1000))
         then Some (delay s (now_ms # 1000) * 1000)%Q else None;
       rl_return := None |}.
Proof.
  intros Hr Ht Hlt. unfold rateLimitCallback. rewrite Hr.
  apply state_has_true in Ht. rewrite Ht. simpl.
  apply Qlt_bool_iff in Hlt. now rewrite Hlt.
Qed.

Lemma requestCount_Qeq (s : State) (c : Q) :
  s !! "request_count" = Some (VNum c) -> (requestCount s == c + 1)%Q.
Proof.
  intros Hc. unfold requestCount, state_get_number. rewrite Hc. simpl.
  destruct (Qeq_bool c 0) eqn:E; [|reflexivity].
  apply Qeq_bool_iff in E. now rewrite E.
Qed.

(** C1: in a session whose window began at [t0] and whose stored count is
    [c], when the incremented count [c + 1] exceeds the quota of 10 (the
    request after the tenth), the callback computes
    [delay = 60 - elapsed + 1], with [elapsed] the time since [t0], suspends
    the caller for [delay] seconds exactly when [delay] is positive, then
    stores the time read after that as the start of the window and 1 as the
    count, and returns [undefined]: the request is admitted. *)
Theorem rateLimitCallback_over_quota now_ms wake_ms r cs (s : State) t0 c :
  contents r = Some cs ->
  s !! "timer_start" = Some (VNum t0) ->
  s !! "request_count" = Some (VNum c) ->
  (RPM_QUOTA < c + 1)%Q ->
  let now := (now_ms # 1000)%Q in
  let res := rateLimitCallback now_ms wake_ms (Some r) s in
  RPM_QUOTA = 10%Q
  /\ (requestCount s == c + 1)%Q
  /\ delay s now = (60 - elapsedSecs s now + 1)%Q
  /\ (~ (t0 == 0)%Q -> elapsedSecs s now = (now - t0)%Q)
  /\ ((0 < delay s now)%Q -> rl_timeout_ms res = Some (delay s now * 1000)%Q)
  /\ (~ (0 < delay s now)%Q -> rl_timeout_ms res = None)
  /\ rl_state res
     = <["request_count" := VNum 1%Q]>
         (<["timer_start" := VNum (wake_ms # 1000)%Q]> s)
  /\ rl_return res = None.
Proof.
  intros Hr Ht Hc Hlt now res. subst res.
  pose proof (requestCount_Qeq s c Hc) as Hrc.
  assert (Hover : (RPM_QUOTA < requestCount s)%Q) by now rewrite Hrc.
  assert (Hsome : is_Some (s !! "timer_start")) by eauto.
  rewrite (rateLimitCallback_exceeded _ _ _ _ _ Hr Hsome Hover). simpl.
  split; [reflexivity|]. split; [exact Hrc|]. split; [reflexivity|]. split.
  { intros Hz. now apply elapsedSecs_stored. }
  split; [|split; [|split; reflexivity]].
  - intros Hpos. apply Qlt_bool_iff in Hpos. fold now. now rewrite Hpos.
  - intros Hneg. fold now.
    destruct (Qlt_bool 0 (delay s now)) eqn:E; [|reflexivity].
    apply Qlt_bool_iff in E. contradiction.
Qed.

Lemma rateLimitCallback_over_quota_witness :
  let res := rateLimitCallback 130000 161000 (Some sample_request) full_window in
  (exists d, rl_timeout_ms res = Some d /\ (d == 31000)%Q)
  /\ rl_state res !! "timer_start" = Some (VNum (161000 # 1000)%Q)
  /\ rl_state res !! "request_count" = Some (VNum 1%Q)
  /\ rl_return res = None.
Proof.
  destruct (rateLimitCallback_over_quota 130000 161000 sample_request
              [ {| parts := Some [ {| part_text := Some "hello" |};
                                   {| part_text := Some EmptyString |};
                                   {| part_text := None |} ] |};
                {| parts := None |} ] full_window 100%Q 10%Q)
    as (_ & _ & _ & _ & Hpos & _ & Hst & Hret).
  - reflexivity.
  - unfold full_window. rewrite lookup_insert_ne by discriminate.
    apply lookup_insert_eq.
  - apply lookup_insert_eq.
  - vm_compute. reflexivity.
  - cbv zeta. split; [|split; [|split]].
    + eexists. split; [apply Hpos; vm_compute; reflexivity|].
      vm_compute. reflexivity.
    + rewrite Hst. rewrite lookup_insert_ne by discriminate.
      apply lookup_insert_eq.
    + rewrite Hst. apply lookup_insert_eq.
    + exact Hret.
Defined.

(** *** Sequences of invocations *)

Lemma admitted_true i :
  admitted i = true ->
  exists r cs, inv_request i = Some r /\ contents r = Some cs.
Proof.
  unfold admitted. destruct (inv_request i) as [r|]; [|discriminate].
  destruct (contents r) as [cs|] eqn:E; [|discriminate]. eauto.
Qed.

Lemma invoke_skip (s : State) i :
  admitted i = false ->
  rl_state (invoke s i) = s /\ rl_timeout_ms (invoke s i) = None.
Proof.
  unfold admitted, invoke. intros H.
  rewrite rateLimitCallback_skip; [split; reflexivity|].
  destruct (inv_request i) as [r|]; [|now left]. right.
  exists r. split; [reflexivity|]. now destruct (contents r).
Qed.

Lemma invoke_first (s : State) i :
  admitted i = true -> s !! "timer_start" = None ->
  window_open (rl_state (invoke s i)) 1
  /\ rl_timeout_ms (invoke s i) = None.
Proof.
  intros Ha Ht. apply admitted_true in Ha as (r & cs & Hi & Hr).
  unfold invoke. rewrite Hi, (rateLimitCallback_first _ _ _ _ _ Hr Ht). simpl.
  split; [|reflexivity]. split.
  - rewrite lookup_insert_ne by discriminate. rewrite lookup_insert_eq. eauto.
  - apply lookup_insert_eq.
Qed.

Lemma invoke_within (s : State) i n :
  admitted i = true -> window_open s n -> 1 <= n < 10 ->
  window_open (rl_state (invoke s i)) (n + 1)
  /\ rl_timeout_ms (invoke s i) = None.
Proof.
  intros Ha [[t Ht] Hc] Hn. apply admitted_true in Ha as (r & cs & Hi & Hr).
  assert (Hrc : requestCount s = inject_Z (n + 1))
    by (apply requestCount_stored; [exact Hc|lia]).
  assert (Hsome : is_Some (s !! "timer_start")) by eauto.
  unfold invoke. rewrite Hi, (rateLimitCallback_within _ _ _ _ _ Hr Hsome).
  - simpl. split; [|reflexivity]. split.
    + exists t. rewrite lookup_insert_ne by discriminate. exact Ht.
    + rewrite lookup_insert_eq, Hrc. reflexivity.
  - rewrite Hrc. unfold RPM_QUOTA, Qle. simpl. lia.
Qed.

Lemma invoke_exceeded (s : State) i :
  admitted i = true -> window_open s 10 ->
  window_open (rl_state (invoke s i)) 1.
Proof.
  intros Ha [[t Ht] Hc]. apply admitted_true in Ha as (r & cs & Hi & Hr).
  assert (Hrc : requestCount s = inject_Z 11)
    by (apply (requestCount_stored s 10); [exact Hc|lia]).
  assert (Hsome : is_Some (s !! "timer_start")) by eauto.
  unfold invoke. rewrite Hi, (rateLimitCallback_exceeded _ _ _ _ _ Hr Hsome).
  - simpl. split.
    + rewrite lookup_insert_ne by discriminate. rewrite lookup_insert_eq. eauto.
    + apply lookup_insert_eq.
  - rewrite Hrc. reflexivity.
Qed.

(** One more invocation keeps the stored count between 1 and the quota. *)
Lemma invoke_window_open (s : State) i n :
  window_open s n -> 1 <= n <= 10 ->
  exists n', 1 <= n' <= 10 /\ window_open (rl_state (invoke s i)) n'.
Proof.
  intros Hw Hn. destruct (admitted i) eqn:Ha.
  - destruct (Z.eq_dec n 10) as [->|Hne].
    + exists 1. split; [lia|]. now apply invoke_exceeded.
    + exists (n + 1). split; [lia|]. apply invoke_within; [assumption..|lia].
  - exists n. split; [exact Hn|].
    destruct (invoke_skip s i Ha) as [-> _]. exact Hw.
Qed.

Lemma run_invocations_window_open invs (s : State) n :
  window_open s n -> 1 <= n <= 10 ->
  exists n', 1 <= n' <= 10 /\ window_open (run_invocations s invs) n'.
Proof.
  revert s n. induction invs as [|i invs IH]; intros s n Hw Hn.
  - exists n. split; assumption.
  - destruct (invoke_window_open s i n Hw Hn) as (n' & Hn' & Hw').
    exact (IH _ _ Hw' Hn').
Qed.

Lemma run_within_quota invs (s : State) n :
  window_open s n -> 1 <= n ->
  Forall (fun i => admitted i = true) invs ->
  n + Z.of_nat (length invs) <= 10 ->
  Forall (fun t => t = None) (run_timeouts s invs)
  /\ window_open (run_invocations s invs) (n + Z.of_nat (length invs)).
Proof.
  revert s n. induction invs as [|i invs IH]; intros s n Hw Hn Hall Hlen.
  - simpl. rewrite Z.add_0_r. split; [constructor|exact Hw].
  - inversion Hall as [|? ? Ha Hall']; subst. simpl length in *.
    destruct (invoke_within s i n Ha Hw) as [Hw' Hto]; [lia|].
    destruct (IH _ (n + 1) Hw') as [Hts Hfin]; [lia|exact Hall'|lia|].
    simpl. split.
    + constructor; assumption.
    + replace (n + Z.of_nat (S (length invs)))
        with (n + 1 + Z.of_nat (length invs)) by lia.
      exact Hfin.
Qed.

(** C2: on a session without a window the first invocation stores the
    current time and the count 1 and returns at once; an invocation whose
    incremented count is at most the quota of 10 stores that count and
    returns at once; so the first N invocations of a fresh session, for any
    N up to the quota, suspend nobody and leave the count at N. *)
Theorem rateLimitCallback_within_quota :
  (forall now_ms wake_ms r cs (s : State),
     contents r = Some cs -> s !! "timer_start" = None ->
     let res := rateLimitCallback now_ms wake_ms (Some r) s in
     rl_state res
     = <["request_count" := VNum 1%Q]>
         (<["timer_start" := VNum (now_ms # 1000)%Q]> s)
     /\ rl_timeout_ms res = None /\ rl_return res = None)
  /\ (forall now_ms wake_ms r cs (s : State) c,
        contents r = Some cs -> is_Some (s !! "timer_start") ->
        s !! "request_count" = Some (VNum c) -> (c + 1 <= RPM_QUOTA)%Q ->
        let res := rateLimitCallback now_ms wake_ms (Some r) s in
        (requestCount s == c + 1)%Q
        /\ rl_state res = <["request_count" := VNum (requestCount s)]> s
        /\ rl_timeout_ms res = None /\ rl_return res = None)
  /\ (forall (s0 : State) (invs : list Invocation),
        s0 !! "timer_start" = None ->
        Forall (fun i => admitted i = true) invs ->
        Z.of_nat (length invs) <= 10 ->
        Forall (fun t => t = None) (run_timeouts s0 invs)
        /\ (invs <> [] ->
            window_open (run_invocations s0 invs) (Z.of_nat (length invs)))).
Proof.
  split; [|split].
  - intros now_ms wake_ms r cs s Hr Ht res. subst res.
    rewrite (rateLimitCallback_first _ _ _ _ _ Hr Ht). auto.
  - intros now_ms wake_ms r cs s c Hr Ht Hc Hle res. subst res.
    pose proof (requestCount_Qeq s c Hc) as Hrc.
    rewrite (rateLimitCallback_within _ _ _ _ _ Hr Ht); [auto|].
    now rewrite Hrc.
  - intros s0 [|i invs] Ht Hall Hlen.
    + split; [constructor|congruence].
    + inversion Hall as [|? ? Ha Hall']; subst. simpl length in Hlen.
      destruct (invoke_first s0 i Ha Ht) as [Hw Hto].
      destruct (run_within_quota invs _ 1 Hw) as [Hts Hfin];
        [lia|exact Hall'|lia|].
      simpl. split; [constructor; assumption|]. intros _.
      replace (Z.of_nat (S (length invs)))
        with (1 + Z.of_nat (length invs)) by lia.
      exact Hfin.
Qed.

Lemma rateLimitCallback_within_quota_witness :
  rl_state (rateLimitCallback 5000 5000 (Some sample_request) ∅)
  = <["request_count" := VNum 1%Q]> (<["timer_start" := VNum (5000 # 1000)%Q]> ∅)
  /\ rl_state (rateLimitCallback 120000 120000 (Some sample_request) open_window)
       !! "request_count" = Some (VNum 5%Q)
  /\ rl_timeout_ms (rateLimitCallback 120000 120000 (Some sample_request) open_window)
     = None
  /\ Forall (fun t => t = None)
       (run_timeouts ∅ (map sample_invocation [1000; 2000; 3000]))
  /\ window_open (run_invocations ∅ (map sample_invocation [1000; 2000; 3000])) 3.
Proof.
  destruct rateLimitCallback_within_quota as (Hfirst & Hnext & Hrun).
  split; [eapply Hfirst; reflexivity|].
  destruct (Hnext 120000 120000 sample_request
              [ {| parts := Some [ {| part_text := Some "hello" |};
                                   {| part_text := Some EmptyString |};
                                   {| part_text := None |} ] |};
                {| parts := None |} ] open_window 4%Q)
    as (_ & Hst & Hto & _).
  - reflexivity.
  - unfold open_window. rewrite lookup_insert_ne by discriminate.
    rewrite lookup_insert_eq. eauto.
  - apply lookup_insert_eq.
  - vm_compute. discriminate.
  - split; [rewrite Hst; apply lookup_insert_eq|]. split; [exact Hto|].
    destruct (Hrun ∅ (map sample_invocation [1000; 2000; 3000])) as [Hts Hw].
    + reflexivity.
    + repeat constructor.
    + simpl. lia.
    + split; [exact Hts|]. apply Hw. discriminate.
Defined.

(** C7: from a session without rate-window state, after any sequence of
    completed invocations the stored count is a whole number between 1 and
    the quota of 10 (no count is stored only while every invocation so far
    came without contents and returned before touching the state); the
    incremented count an invocation works with is at most one above the
    quota, and an admitted invocation that finds it above the quota stores
    1. *)
Theorem request_count_invariant (s0 : State) (invs : list Invocation) :
  s0 !! "timer_start" = None -> s0 !! "request_count" = None ->
  let s := run_invocations s0 invs in
  ((exists n, 1 <= n <= 10 /\ window_open s n)
   \/ (s = s0 /\ Forall (fun i => admitted i = false) invs))
  /\ (requestCount s <= RPM_QUOTA + 1)%Q
  /\ (forall i, (RPM_QUOTA < requestCount s)%Q -> admitted i = true ->
      rl_state (invoke s i) !! "request_count" = Some (VNum 1%Q)).
Proof.
  intros Ht Hc s.
  assert (Hinv : (exists n, 1 <= n <= 10 /\ window_open s n)
                 \/ (s = s0 /\ Forall (fun i => admitted i = false) invs)).
  { subst s. induction invs as [|i invs IH] using rev_ind.
    - right. split; [reflexivity|constructor].
    - unfold run_invocations in *. rewrite fold_left_app. simpl.
      destruct IH as [(n & Hn & Hw)|[Heq Hall]].
      + left. exact (invoke_window_open _ i n Hw Hn).
      + rewrite Heq. destruct (admitted i) eqn:Ha.
        * left. exists 1. split; [lia|]. now apply invoke_first.
        * right. destruct (invoke_skip s0 i Ha) as [-> _].
          split; [reflexivity|]. apply Forall_app. split; [exact Hall|].
          now constructor. }
  split; [exact Hinv|].
  destruct Hinv as [(n & Hn & Hw)|[Heq _]].
  - assert (Hrc : requestCount s = inject_Z (n + 1))
      by (apply requestCount_stored; [apply Hw|lia]).
    rewrite Hrc. split.
    + unfold RPM_QUOTA, Qle. simpl. lia.
    + intros i Hlt Ha.
      assert (n = 10) as -> by (unfold RPM_QUOTA, Qlt in Hlt; simpl in Hlt; lia).
      now apply invoke_exceeded.
  - rewrite Heq. unfold requestCount, state_get_number. rewrite Hc. split.
    + vm_compute. discriminate.
    + intros i Hlt. vm_compute in Hlt. discriminate.
Qed.

Lemma request_count_invariant_witness :
  exists n, 1 <= n <= 10
    /\ window_open
         (run_invocations ∅
            (map sample_invocation
               [1000; 2000; 3000; 4000; 5000; 6000; 7000; 8000; 9000; 10000;
                11000; 12000]))
         n.
Proof.
  destruct (request_count_invariant ∅
              (map sample_invocation
                 [1000; 2000; 3000; 4000; 5000; 6000; 7000; 8000; 9000; 10000;
                  11000; 12000]))
    as [[H|[_ H]] _].
  - reflexivity.
  - reflexivity.
  - exact H.
  - exfalso. inversion H as [|? ? Ha _]. discriminate Ha.
Defined.

(** ** Customer-identity guard *)

Section IdentityGuard.
Context {rt : JsRuntime}.

Lemma validateCustomerId_unfold (customerId : jsval) (s : State) :
  validateCustomerId customerId s
  = match s !! "customer_profile" with
    | None => (false, Some NO_PROFILE_MESSAGE)
    | Some profileJson =>
        if truthy profileJson then
          if ToString_throws profileJson then (false, Some PARSE_MESSAGE)
          else
            match JSON_parse (ToString profileJson) with
            | Some profileData =>
                match Customer_new profileData with
                | Some c =>
                    if strict_eq customerId (customer_id c) then (true, None)
                    else if ToString_throws customerId
                            || ToString_throws (customer_id c)
                    then (false, Some PARSE_MESSAGE)
                    else (false,
                          Some (mismatch_message customerId (customer_id c)))
                | None => (false, Some PARSE_MESSAGE)
                end
            | None => (false, Some PARSE_MESSAGE)
            end
        else (false, Some EMPTY_PROFILE_MESSAGE)
    end.
Proof.
  unfold validateCustomerId, state_has, state_get.
  destruct (s !! "customer_profile") as [pj|] eqn:E.
  - rewrite bool_decide_eq_true_2 by eauto. simpl.
    destruct (truthy pj); reflexivity.
  - rewrite bool_decide_eq_false_2; [reflexivity|].
    intros [x Hx]. discriminate.
Qed.

Lemma validateCustomerId_bound (customerId : jsval) (s : State) c :
  bound_profile s = Some c ->
  validateCustomerId customerId s
  = if strict_eq customerId (customer_id c) then (true, None)
    else if ToString_throws customerId || ToString_throws (customer_id c)
    then (false, Some PARSE_MESSAGE)
    else (false, Some (mismatch_message customerId (customer_id c))).
Proof.
  rewrite validateCustomerId_unfold. unfold bound_profile.
  destruct (s !! "customer_profile") as [pj|]; [|discriminate].
  destruct (truthy pj); [|discriminate].
  destruct (ToString_throws pj); [discriminate|]. cbn [negb andb].
  destruct (JSON_parse (ToString pj)) as [d|]; [|discriminate].
  intros ->. reflexivity.
Qed.

(** Between two ids that are not objects or arrays the conversion of the
    mismatch message cannot fail. *)
Lemma validateCustomerId_bound_strings (a b : string) (s : State) c :
  bound_profile s = Some c -> customer_id c = VStr b ->
  validateCustomerId (VStr a) s
  = if String.eqb a b then (true, None)
    else (false, Some (mismatch_message (VStr a) (VStr b))).
Proof.
  intros Hb Hid. rewrite (validateCustomerId_bound _ _ _ Hb), Hid. reflexivity.
Qed.

Lemma validateCustomerId_unbound (customerId : jsval) (s : State) :
  bound_profile s = None ->
  exists err, validateCustomerId customerId s = (false, Some err)
              /\ (err = NO_PROFILE_MESSAGE \/ err = EMPTY_PROFILE_MESSAGE
                  \/ err = PARSE_MESSAGE).
Proof.
  rewrite validateCustomerId_unfold. unfold bound_profile.
  destruct (s !! "customer_profile") as [pj|]; [|eauto].
  destruct (truthy pj); [|eauto 6].
  destruct (ToString_throws pj); [eauto 6|]. cbn [negb andb].
  destruct (JSON_parse (ToString pj)) as [d|]; [|eauto 6].
  intros ->. eauto 6.
Qed.

(** Every verdict is a pass without message or a failure with a
    non-empty one. *)
Lemma validateCustomerId_verdict (customerId : jsval) (s : State) :
  validateCustomerId customerId s = (true, None)
  \/ exists err, validateCustomerId customerId s = (false, Some err)
                 /\ String.eqb err EmptyString = false.
Proof.
  destruct (bound_profile s) as [c|] eqn:Hb.
  - rewrite (validateCustomerId_bound _ _ _ Hb).
    destruct (strict_eq customerId (customer_id c)); [now left|].
    right.
    destruct (ToString_throws customerId || ToString_throws (customer_id c));
      eexists; split; reflexivity.
  - right. destruct (validateCustomerId_unbound customerId s Hb)
      as (err & -> & [->|[->| ->]]); eexists; split; reflexivity.
Qed.

Lemma strict_eq_strings a b : strict_eq (VStr a) (VStr b) = true <-> a = b.
Proof. simpl. apply String.eqb_eq. Qed.

(** *** The arguments as the guards see them *)

Lemma delete_all_keys (ks : list string) (o : obj) :
  (forall k, k ∈ obj_keys o -> k ∈ ks) -> fold_left obj_delete ks o = [].
Proof.
  revert o. induction ks as [|k ks IH]; intros o Hsub.
  - destruct o as [|[k v] o]; [reflexivity|].
    exfalso. specialize (Hsub k). simpl in Hsub.
    eapply not_elem_of_nil. apply Hsub. left.
  - simpl. apply IH. intros k' Hk'.
    assert (Hin : k' ∈ obj_keys o /\ k' <> k).
    { clear -Hk'. induction o as [|[k0 v0] o IHo]; simpl in *.
      - now apply not_elem_of_nil in Hk'.
      - destruct (String.eqb_spec k0 k) as [->|Hne].
        + destruct (IHo Hk') as [Hin Hne]. split; [now right|exact Hne].
        + simpl in Hk'. apply elem_of_cons in Hk' as [->|Hk'].
          * split; [left|exact Hne].
          * destruct (IHo Hk') as [Hin Hne']. split; [now right|exact Hne']. }
    destruct Hin as [Hin Hne]. specialize (Hsub _ Hin).
    apply elem_of_cons in Hsub as [->|Hsub]; [congruence|exact Hsub].
Qed.

Lemma Object_assign_empty (source : obj) :
  NoDup (obj_keys source) -> "__proto__"%string ∉ obj_keys source ->
  Object_assign [] source = source.
Proof.
  intros Hnd Hp. change (Object_assign [] source)
    with (rebuild (fun v => v) source []).
  rewrite rebuild_distinct; [|exact Hnd|apply not_elem_of_nil].
  rewrite filter_ordinary_id by exact Hp. simpl.
  rewrite <- (map_id source) at 2. apply map_ext. now intros [k v].
Qed.

(** After the in-place rewrite the arguments are the lowercased ones. *)
Lemma beforeTool_args tool_name (args : obj) (s : State) :
  bt_args (beforeTool tool_name args s) = rebuild lowercaseValue args [].
Proof.
  assert (Hargs : Object_assign (fold_left obj_delete (obj_keys args) args)
                    (entries_of (lowercaseValue (VObj args)))
                  = rebuild lowercaseValue args []).
  { rewrite delete_all_keys by auto. simpl entries_of.
    apply Object_assign_empty.
    - apply rebuild_NoDup. constructor.
    - apply rebuild_no_proto. apply not_elem_of_nil. }
  unfold beforeTool. rewrite Hargs.
  repeat match goal with
         | |- context [match ?x with _ => _ end] => destruct x
         end; reflexivity.
Qed.

Lemma beforeTool_args_distinct tool_name (args : obj) (s : State) :
  NoDup (obj_keys args) ->
  bt_args (beforeTool tool_name args s)
  = map (fun kv => (fst kv, lowercaseValue (snd kv)))
      (List.filter ordinary_key args).
Proof.
  intros Hnd. rewrite beforeTool_args.
  rewrite rebuild_distinct; [reflexivity|exact Hnd|apply not_elem_of_nil].
Qed.

(** [beforeTool] in terms of the lowercased arguments: the verdict of the
    guard on them first, the two short-circuits after it. *)
Lemma beforeTool_unfold tool_name (args : obj) (s : State) :
  let a := rebuild lowercaseValue args [] in
  beforeTool tool_name args s
  = {| bt_args := a;
       bt_return :=
         match guard_verdict a s with
         | (false, Some err) => Some [ ("error", VStr err) ]
         | _ =>
             if String.eqb tool_name "sync_ask_for_approval"
                && negb (strict_eq (get_prop (VObj a) "value") VUndefined)
                && Number_le (get_prop (VObj a) "value") 10
             then Some APPROVED_RESULT
             else if String.eqb tool_name "modify_cart"
                     && strict_eq (get_prop (VObj a) "items_added") (VBool true)
                     && strict_eq (get_prop (VObj a) "items_removed") (VBool true)
             then Some MODIFY_CART_RESULT
             else None
         end |}.
Proof.
  intros a.
  assert (Hargs : Object_assign (fold_left obj_delete (obj_keys args) args)
                    (entries_of (lowercaseValue (VObj args))) = a).
  { rewrite delete_all_keys by auto. simpl entries_of.
    apply Object_assign_empty.
    - apply rebuild_NoDup. constructor.
    - apply rebuild_no_proto. apply not_elem_of_nil. }
  unfold beforeTool, guard_verdict. rewrite Hargs.
  destruct (obj_has a "customer_id").
  - destruct (validateCustomerId_verdict (get_prop (VObj a) "customer_id") s)
      as [->|(err & -> & Herr)].
    + repeat match goal with
             | |- context [if ?x then _ else _] => destruct x
             end; reflexivity.
    + rewrite Herr. reflexivity.
  - repeat match goal with
           | |- context [if ?x then _ else _] => destruct x
           end; reflexivity.
Qed.

Lemma dispatch_override execute tool_name (args : obj) (s : State) payload :
  bt_return (beforeTool tool_name args s) = Some payload ->
  dr_invoked (dispatch execute tool_name args s) = false
  /\ dr_result (dispatch execute tool_name args s) = VObj payload
  /\ dr_state (dispatch execute tool_name args s) = s.
Proof. intros H. unfold dispatch. rewrite H. simpl. auto. Qed.

Lemma dispatch_run execute tool_name (args : obj) (s : State) :
  bt_return (beforeTool tool_name args s) = None ->
  dr_invoked (dispatch execute tool_name args s) = true
  /\ dr_result (dispatch execute tool_name args s)
     = execute (bt_args (beforeTool tool_name args s))
  /\ dr_state (dispatch execute tool_name args s) = s.
Proof. intros H. unfold dispatch. rewrite H. simpl. auto. Qed.

(** C4: the guard passes exactly when a profile is bound to the session
    and the customer_id handed to the guard is strictly equal to the
    profile's, for string ids exactly when the two strings are the same;
    in a session bound to customer 123 the id 123 passes and the id 999 is
    rejected with a message that names 999 and 123; and whenever the
    arguments carry a customer_id that the guard rejects, [beforeTool]
    returns the error payload and the tool is not run.  The id [beforeTool]
    hands to the guard is the one in the lowercased arguments. *)
Theorem identity_guard (s : State) :
  (forall customerId,
     validateCustomerId customerId s = (true, None)
     <-> exists c, bound_profile s = Some c
                   /\ strict_eq customerId (customer_id c) = true)
  /\ (forall a b c,
        bound_profile s = Some c -> customer_id c = VStr b ->
        (validateCustomerId (VStr a) s = (true, None) <-> a = b))
  /\ (forall c,
        bound_profile s = Some c -> customer_id c = VStr "123" ->
        validateCustomerId (VStr "123") s = (true, None)
        /\ validateCustomerId (VStr "999") s
           = (false,
              Some "You cannot use the tool with customer_id 999, only for 123."))
  /\ (forall tool_name (args : obj) execute,
        let a := bt_args (beforeTool tool_name args s) in
        obj_has a "customer_id" = true ->
        validateCustomerId (get_prop (VObj a) "customer_id") s <> (true, None) ->
        exists err,
          validateCustomerId (get_prop (VObj a) "customer_id") s
          = (false, Some err)
          /\ bt_return (beforeTool tool_name args s)
             = Some [ ("error", VStr err) ]
          /\ dr_invoked (dispatch execute tool_name args s) = false
          /\ dr_result (dispatch execute tool_name args s)
             = VObj [ ("error", VStr err) ])
  /\ (forall tool_name (args : obj) supplied err,
        NoDup (obj_keys args) ->
        obj_get args "customer_id" = Some supplied ->
        validateCustomerId (lowercaseValue supplied) s = (false, Some err) ->
        bt_return (beforeTool tool_name args s) = Some [ ("error", VStr err) ]).
Proof.
  split; [|split; [|split; [|split]]].
  - intros customerId. split.
    + intros Hv. destruct (bound_profile s) as [c|] eqn:Hb.
      * exists c. split; [reflexivity|].
        rewrite (validateCustomerId_bound _ _ _ Hb) in Hv.
        destruct (strict_eq customerId (customer_id c)); [reflexivity|].
        destruct (ToString_throws customerId
                  || ToString_throws (customer_id c)); discriminate.
      * destruct (validateCustomerId_unbound customerId s Hb)
          as (err & Herr & _). congruence.
    + intros (c & Hb & Heq).
      now rewrite (validateCustomerId_bound _ _ _ Hb), Heq.
  - intros a b c Hb Hid.
    rewrite (validateCustomerId_bound_strings _ _ _ _ Hb Hid).
    destruct (String.eqb_spec a b); split; congruence.
  - intros c Hb Hid.
    rewrite !(validateCustomerId_bound _ _ _ Hb), Hid. split; reflexivity.
  - intros tool_name args execute a Hhas Hfail.
    destruct (validateCustomerId_verdict (get_prop (VObj a) "customer_id") s)
      as [Hok|(err & Herr & Hne)]; [contradiction|].
    exists err. split; [exact Herr|].
    assert (Hret : bt_return (beforeTool tool_name args s)
                   = Some [ ("error", VStr err) ]).
    { subst a. rewrite beforeTool_args in Hhas, Herr.
      rewrite beforeTool_unfold. simpl. unfold guard_verdict.
      now rewrite Hhas, Herr. }
    split; [exact Hret|].
    destruct (dispatch_override execute _ _ _ _ Hret) as (? & ? & _).
    split; assumption.
  - intros tool_name args supplied err Hnd Hget Herr.
    rewrite beforeTool_unfold. cbv zeta. cbn [bt_return].
    rewrite (rebuild_distinct lowercaseValue args []);
      [|exact Hnd|apply not_elem_of_nil].
    unfold guard_verdict, obj_has. simpl.
    rewrite !obj_get_map, !obj_get_filter, Hget by discriminate.
    simpl. now rewrite Herr.
Qed.

(** C10: a session whose customer_profile key holds a falsy value (the
    empty string, for one) fails the guard with the empty-profile message,
    which is neither the no-profile message nor the parse message,
    whatever [JSON.parse] would make of the stored value. *)
Theorem empty_profile_message (customerId v : jsval) (s : State) :
  s !! "customer_profile" = Some v -> truthy v = false ->
  validateCustomerId customerId s = (false, Some "Customer profile is empty.")
  /\ "Customer profile is empty." <> NO_PROFILE_MESSAGE
  /\ "Customer profile is empty." <> PARSE_MESSAGE.
Proof.
  intros Hs Hv. rewrite validateCustomerId_unfold, Hs, Hv.
  split; [reflexivity|]. split; discriminate.
Qed.
End IdentityGuard.

Lemma identity_guard_witness :
  @validateCustomerId Reference.runtime (VStr "123") bound_session = (true, None)
  /\ @validateCustomerId Reference.runtime (VStr "999") bound_session
     = (false,
        Some "You cannot use the tool with customer_id 999, only for 123.")
  /\ bt_return (@beforeTool Reference.runtime "access_cart_information"
                  [ ("customer_id", VStr "999") ] bound_session)
     = Some [ ("error",
               VStr "You cannot use the tool with customer_id 999, only for 123.") ]
  /\ bt_return (@beforeTool Reference.runtime "modify_cart"
                  [ ("customer_id", VStr "ABC") ] bound_session)
     = Some [ ("error",
               VStr "You cannot use the tool with customer_id abc, only for 123.") ].
Proof.
  destruct (@identity_guard Reference.runtime bound_session)
    as (_ & _ & Hids & Hbefore & Hraw).
  assert (Hb : exists c, @bound_profile Reference.runtime bound_session = Some c
                         /\ customer_id c = VStr "123").
  { vm_compute. eexists. split; reflexivity. }
  destruct Hb as (c & Hb & Hid).
  destruct (Hids c Hb Hid) as [H123 H999].
  split; [exact H123|]. split; [exact H999|]. split.
  - destruct (Hbefore "access_cart_information" [ ("customer_id", VStr "999") ]
                (fun _ => VUndefined))
      as (err & Herr & Hret & _).
    + vm_compute. reflexivity.
    + vm_compute. discriminate.
    + rewrite Hret. do 3 f_equal.
      assert (Hv : @validateCustomerId Reference.runtime
                     (get_prop
                        (VObj (bt_args
                                 (@beforeTool Reference.runtime
                                    "access_cart_information"
                                    [ ("customer_id", VStr "999") ]
                                    bound_session)))
                        "customer_id") bound_session
                   = (false,
                      Some "You cannot use the tool with customer_id 999, only for 123."))
        by (vm_compute; reflexivity).
      rewrite Hv in Herr. now inversion Herr.
  - apply (Hraw "modify_cart" [ ("customer_id", VStr "ABC") ] (VStr "ABC")).
    + apply NoDup_singleton.
    + reflexivity.
    + vm_compute. reflexivity.
Defined.

Lemma empty_profile_message_witness :
  @validateCustomerId Reference.runtime (VStr "123") empty_profile_session
  = (false, Some "Customer profile is empty.")
  /\ Reference.json_parse EmptyString = None.
Proof.
  split; [|reflexivity].
  apply (@empty_profile_message Reference.runtime (VStr "123")
           (VStr EmptyString) empty_profile_session); reflexivity.
Defined.

(** ** Discount short-circuit, post-dispatch hook, bootstrap *)

Section ToolCallbacks.
Context {rt : JsRuntime}.

(** What the guards see of well-formed arguments that carry a number under
    [value]: the same number, and a customer_id exactly if one was sent. *)
Lemma numeric_value_seen tool_name (args : obj) (s : State) q :
  NoDup (obj_keys args) -> obj_get args "value" = Some (VNum q) ->
  let a := bt_args (beforeTool tool_name args s) in
  get_prop (VObj a) "value" = VNum q
  /\ obj_has a "customer_id" = obj_has args "customer_id".
Proof.
  intros Hnd Hv a. subst a. rewrite beforeTool_args_distinct by exact Hnd.
  split.
  - simpl. now rewrite obj_get_map, obj_get_filter, Hv by discriminate.
  - rewrite obj_has_map. unfold obj_has.
    now rewrite obj_get_filter by discriminate.
Qed.

Lemma beforeTool_approval (args : obj) (s : State) :
  let a := bt_args (beforeTool "sync_ask_for_approval" args s) in
  guard_verdict a s = (true, None) ->
  bt_return (beforeTool "sync_ask_for_approval" args s)
  = if Number_le (get_prop (VObj a) "value") 10
    then Some APPROVED_RESULT else None.
Proof.
  intros a Hg. subst a. rewrite beforeTool_args in *.
  rewrite beforeTool_unfold. cbv zeta. cbn [bt_return]. rewrite Hg.
  change (String.eqb "sync_ask_for_approval" "sync_ask_for_approval") with true.
  change (String.eqb "sync_ask_for_approval" "modify_cart") with false.
  cbn [andb].
  set (v := get_prop (VObj (rebuild lowercaseValue args [])) "value").
  destruct v; cbn [strict_eq negb andb];
    try (destruct (Number_le _ 10); reflexivity).
  reflexivity.
Qed.

(** C6, as the code has it: for the tool named sync_ask_for_approval and
    arguments that carry no customer_id, or one that passes the identity
    guard, a value that is numerically at most 10 makes [beforeTool] return
    the approved result with the no-manager-needed message, and the tool is
    not run; in particular for well-formed arguments without customer_id
    whose value is a number at most 10. *)
Theorem auto_approval_short_circuit :
  (forall (args : obj) (s : State) execute,
     let a := bt_args (beforeTool "sync_ask_for_approval" args s) in
     guard_verdict a s = (true, None) ->
     Number_le (get_prop (VObj a) "value") 10 = true ->
     bt_return (beforeTool "sync_ask_for_approval" args s)
     = Some [ ("status", VStr "approved");
              ("message",
               VStr "You can approve this discount; no manager needed.") ]
     /\ dr_invoked (dispatch execute "sync_ask_for_approval" args s) = false
     /\ dr_result (dispatch execute "sync_ask_for_approval" args s)
        = VObj APPROVED_RESULT)
  /\ (forall (args : obj) (s : State) q,
        NoDup (obj_keys args) -> obj_has args "customer_id" = false ->
        obj_get args "value" = Some (VNum q) -> (q <= 10)%Q ->
        bt_return (beforeTool "sync_ask_for_approval" args s)
        = Some APPROVED_RESULT).
Proof.
  assert (Hgen : forall (args : obj) (s : State),
             guard_verdict (bt_args (beforeTool "sync_ask_for_approval" args s)) s
             = (true, None) ->
             Number_le
               (get_prop
                  (VObj (bt_args (beforeTool "sync_ask_for_approval" args s)))
                  "value") 10 = true ->
             bt_return (beforeTool "sync_ask_for_approval" args s)
             = Some APPROVED_RESULT).
  { intros args s Hg Hle. rewrite (beforeTool_approval args s Hg).
    now rewrite Hle. }
  split.
  - intros args s execute a Hg Hle. pose proof (Hgen args s Hg Hle) as Hret.
    split; [exact Hret|].
    destruct (dispatch_override execute _ _ _ _ Hret) as (? & ? & _).
    split; assumption.
  - intros args s q Hnd Hno Hv Hle.
    destruct (numeric_value_seen "sync_ask_for_approval" args s q Hnd Hv)
      as [Hval Hhas].
    apply Hgen.
    + unfold guard_verdict. now rewrite Hhas, Hno.
    + rewrite Hval. unfold Number_le. simpl. now apply Qle_bool_iff.
Qed.

(** C5, as the code has it: a request of value 11, and of any value above
    10, sent to sync_ask_for_approval with no customer_id, or with one that
    passes the identity guard, is not short-circuited: [beforeTool] returns
    no override and the tool runs.  The tool it reaches,
    [syncAskForApproval], answers approved for every value; it is the direct
    approval, [approveDiscount], that rejects every value above 10. *)
Theorem discount_above_limit :
  (forall (args : obj) (s : State) q execute,
     let a := bt_args (beforeTool "sync_ask_for_approval" args s) in
     guard_verdict a s = (true, None) ->
     get_prop (VObj a) "value" = VNum q -> (10 < q)%Q ->
     bt_return (beforeTool "sync_ask_for_approval" args s) = None
     /\ dr_invoked (dispatch execute "sync_ask_for_approval" args s) = true
     /\ dr_result (dispatch execute "sync_ask_for_approval" args s)
        = execute a)
  /\ (forall (args : obj) (s : State) q,
        NoDup (obj_keys args) -> obj_has args "customer_id" = false ->
        obj_get args "value" = Some (VNum q) -> (10 < q)%Q ->
        bt_return (beforeTool "sync_ask_for_approval" args s) = None)
  /\ (forall discountType value reason,
        syncAskForApproval discountType value reason
        = [ ("status", VStr "approved") ])
  /\ (forall discountType value reason,
        (10 < value)%Q ->
        approveDiscount discountType value reason
        = [ ("status", VStr "rejected");
            ("message", VStr "discount too large. Must be 10 or less.") ]).
Proof.
  assert (Hgen : forall (args : obj) (s : State) q,
             guard_verdict (bt_args (beforeTool "sync_ask_for_approval" args s)) s
             = (true, None) ->
             get_prop
               (VObj (bt_args (beforeTool "sync_ask_for_approval" args s)))
               "value" = VNum q ->
             (10 < q)%Q ->
             bt_return (beforeTool "sync_ask_for_approval" args s) = None).
  { intros args s q Hg Hval Hlt. rewrite (beforeTool_approval args s Hg), Hval.
    unfold Number_le. simpl.
    destruct (Qle_bool q 10) eqn:E; [|reflexivity].
    apply Qle_bool_iff in E. exfalso. exact (Qlt_not_le _ _ Hlt E). }
  split; [|split; [|split]].
  - intros args s q execute a Hg Hval Hlt.
    pose proof (Hgen args s q Hg Hval Hlt) as Hret.
    split; [exact Hret|].
    destruct (dispatch_run execute _ _ _ Hret) as (? & ? & _).
    split; assumption.
  - intros args s q Hnd Hno Hv Hlt.
    destruct (numeric_value_seen "sync_ask_for_approval" args s q Hnd Hv)
      as [Hval Hhas].
    apply (Hgen args s q); [|exact Hval|exact Hlt].
    unfold guard_verdict. now rewrite Hhas, Hno.
  - reflexivity.
  - intros discountType value reason Hlt. unfold approveDiscount.
    apply Qlt_bool_iff in Hlt. now rewrite Hlt.
Qed.

(** C9: [afterTool] returns [undefined] whatever the tool, the arguments
    and the result, and leaves the session state alone, so what the tool
    (or a short-circuit) produced is what the dispatch hands on.  It writes
    its one console line exactly for sync_ask_for_approval with status
    approved and for approve_discount with status ok, and does nothing for
    any other tool. *)
Theorem afterTool_passes_through tool_name (args : obj) (s : State)
    (toolResponse : jsval) :
  at_return (afterTool tool_name args s toolResponse) = None
  /\ at_state (afterTool tool_name args s toolResponse) = s
  /\ at_console (afterTool tool_name args s toolResponse)
     = (if (String.eqb tool_name "sync_ask_for_approval"
            && truthy toolResponse
            && strict_eq (get_prop toolResponse "status") (VStr "approved"))
           || (String.eqb tool_name "approve_discount"
               && truthy toolResponse
               && strict_eq (get_prop toolResponse "status") (VStr "ok"))
        then [ "Applying discount to the cart"%string ] else [])
  /\ (tool_name <> "sync_ask_for_approval"%string ->
      tool_name <> "approve_discount"%string ->
      at_console (afterTool tool_name args s toolResponse) = [])
  /\ (forall execute,
        dr_result (dispatch execute tool_name args s)
        = match bt_return (beforeTool tool_name args s) with
          | Some payload => VObj payload
          | None => execute (bt_args (beforeTool tool_name args s))
          end
        /\ dr_state (dispatch execute tool_name args s) = s).
Proof.
  split; [reflexivity|]. split; [reflexivity|]. split; [|split].
  - unfold afterTool. simpl.
    destruct (String.eqb_spec tool_name "sync_ask_for_approval") as [->|Hne].
    + change (String.eqb "sync_ask_for_approval" "approve_discount") with false.
      simpl. rewrite app_nil_r, orb_false_r. reflexivity.
    + simpl. reflexivity.
  - intros Hne1 Hne2. unfold afterTool. simpl.
    apply String.eqb_neq in Hne1, Hne2. now rewrite Hne1, Hne2.
  - intros execute. unfold dispatch. simpl. split; reflexivity.
Qed.

(** C8: on a session without a bound profile [beforeAgent] loads the fixed
    default record, whose customer_id is 123, and stores its JSON
    serialization under the customer_profile key; on a session that has the
    key it changes nothing. *)
Theorem beforeAgent_binds_default (s : State) :
  (s !! "customer_profile" = None ->
   exists c, getCustomer "123" = Some c
             /\ customer_id c = VStr "123"
             /\ beforeAgent s
                = <["customer_profile" :=
                      VStr (JSON_stringify (Customer_object c) 4)]> s)
  /\ (is_Some (s !! "customer_profile") -> beforeAgent s = s).
Proof.
  split.
  - intros Hs. eexists. split; [reflexivity|]. split; [reflexivity|].
    unfold beforeAgent. apply state_has_false in Hs. now rewrite Hs.
  - intros Hs. unfold beforeAgent. apply state_has_true in Hs. now rewrite Hs.
Qed.
End ToolCallbacks.

Lemma auto_approval_short_circuit_witness :
  bt_return (@beforeTool Reference.runtime "sync_ask_for_approval"
               [ ("customer_id", VStr "123"); ("value", VStr "7") ]
               bound_session)
  = Some APPROVED_RESULT
  /\ dr_invoked (@dispatch Reference.runtime (fun _ => VUndefined)
                   "sync_ask_for_approval"
                   [ ("customer_id", VStr "123"); ("value", VStr "7") ]
                   bound_session) = false
  /\ bt_return (@beforeTool Reference.runtime "sync_ask_for_approval"
                  (discount_args 10) ∅)
     = Some APPROVED_RESULT.
Proof.
  destruct (@auto_approval_short_circuit Reference.runtime) as [Hgen Hnum].
  destruct (Hgen [ ("customer_id", VStr "123"); ("value", VStr "7") ]
              bound_session (fun _ => VUndefined)) as (Hret & Hinv & _).
  - vm_compute. reflexivity.
  - vm_compute. reflexivity.
  - split; [exact Hret|]. split; [exact Hinv|].
    apply (Hnum (discount_args 10) ∅ 10%Q).
    + vm_compute. repeat constructor; intros H; inversion H; subst;
        repeat match goal with
               | H : _ ∈ _ |- _ => inversion H; clear H; subst
               end.
    + reflexivity.
    + reflexivity.
    + vm_compute. discriminate.
Defined.

(** The claim as worded fails on arguments that carry a customer_id the
    guard rejects: the value is at most 10, and what [beforeTool] returns is
    the error payload. *)
Lemma auto_approval_short_circuit_counterexample :
  @Number_le Reference.runtime
    (get_prop (VObj [ ("customer_id", VStr "999"); ("value", VNum 5%Q) ]) "value")
    10 = true
  /\ bt_return (@beforeTool Reference.runtime "sync_ask_for_approval"
                  [ ("customer_id", VStr "999"); ("value", VNum 5%Q) ]
                  bound_session)
     = Some [ ("error",
               VStr "You cannot use the tool with customer_id 999, only for 123.") ]
  /\ bt_return (@beforeTool Reference.runtime "sync_ask_for_approval"
                  [ ("customer_id", VStr "999"); ("value", VNum 5%Q) ]
                  bound_session)
     <> Some APPROVED_RESULT.
Proof.
  split; [vm_compute; reflexivity|].
  split; [vm_compute; reflexivity|].
  vm_compute. discriminate.
Qed.

Lemma discount_above_limit_witness :
  bt_return (@beforeTool Reference.runtime "sync_ask_for_approval"
               (("customer_id", VStr "123") :: discount_args 11) bound_session)
  = None
  /\ bt_return (@beforeTool Reference.runtime "sync_ask_for_approval"
                  (discount_args 11) bound_session) = None
  /\ approveDiscount "percentage" 11 "loyal customer"
     = [ ("status", VStr "rejected");
         ("message", VStr "discount too large. Must be 10 or less.") ].
Proof.
  destruct (@discount_above_limit Reference.runtime)
    as (Hgen & Hbefore & _ & Hreject).
  split; [|split].
  - apply (Hgen (("customer_id", VStr "123") :: discount_args 11) bound_session
             11%Q (fun _ => VUndefined)).
    + vm_compute. reflexivity.
    + vm_compute. reflexivity.
    + vm_compute. reflexivity.
  - apply (Hbefore (discount_args 11) bound_session 11%Q).
    + vm_compute. repeat constructor; intros H; inversion H; subst;
        repeat match goal with
               | H : _ ∈ _ |- _ => inversion H; clear H; subst
               end.
    + reflexivity.
    + reflexivity.
    + vm_compute. reflexivity.
  - apply Hreject. vm_compute. reflexivity.
Defined.

(** The claim as worded fails on the approval path itself: a request of
    value 11 is not short-circuited, and the tool it reaches approves it. *)
Lemma discount_above_limit_counterexample :
  (10 < 11)%Q
  /\ bt_return (@beforeTool Reference.runtime "sync_ask_for_approval"
                  (discount_args 11) bound_session) = None
  /\ get_prop (VObj (syncAskForApproval "percentage" 11 "loyal customer"))
       "status" = VStr "approved"
  /\ get_prop (VObj (syncAskForApproval "percentage" 11 "loyal customer"))
       "status" <> VStr "rejected".
Proof.
  split; [vm_compute; reflexivity|].
  split; [vm_compute; reflexivity|].
  split; [reflexivity|]. simpl. discriminate.
Qed.

Lemma afterTool_passes_through_witness :
  at_console (afterTool "modify_cart" [] ∅
                (VObj [ ("status", VStr "success") ])) = []
  /\ at_console (afterTool "approve_discount" [] ∅
                   (VObj [ ("status", VStr "ok") ]))
     = [ "Applying discount to the cart"%string ].
Proof.
  split.
  - destruct (@afterTool_passes_through Reference.runtime "modify_cart" [] ∅
                (VObj [ ("status", VStr "success") ]))
      as (_ & _ & _ & Hother & _).
    apply Hother; discriminate.
  - destruct (@afterTool_passes_through Reference.runtime "approve_discount"
                [] ∅ (VObj [ ("status", VStr "ok") ]))
      as (_ & _ & Hline & _).
    exact Hline.
Defined.

Lemma beforeAgent_binds_default_witness :
  (exists c,
     getCustomer "123" = Some c
     /\ customer_id c = VStr "123"
     /\ bound_session !! "customer_profile"
        = Some (VStr (@toJson Reference.runtime c)))
  /\ @beforeAgent Reference.runtime bound_session = bound_session.
Proof.
  destruct (@beforeAgent_binds_default Reference.runtime ∅) as [Hnew _].
  destruct (@beforeAgent_binds_default Reference.runtime bound_session)
    as [_ Hkeep].
  destruct Hnew as (c & Hc & Hid & Hs); [reflexivity|].
  assert (Hb : bound_session !! "customer_profile"
               = Some (VStr (@toJson Reference.runtime c))).
  { unfold bound_session. rewrite Hs. apply lookup_insert_eq. }
  split.
  - exists c. split; [exact Hc|]. split; [exact Hid|exact Hb].
  - apply Hkeep. rewrite Hb. eauto.
Defined.

(** ** The guards and the registered tools

    [beforeTool] and [afterTool] test for the names sync_ask_for_approval,
    modify_cart and approve_discount; the agent registers its tools under
    other names, and for those [beforeTool] has no short-circuit. *)

Lemma guarded_names_not_registered :
  ("sync_ask_for_approval"%string ∉ registered_tools)
  /\ ("modify_cart"%string ∉ registered_tools)
  /\ ("approve_discount"%string ∉ registered_tools).
Proof.
  unfold registered_tools.
  repeat split; intros H;
    repeat (apply elem_of_cons in H as [H|H]; [discriminate H|]);
    now apply not_elem_of_nil in H.
Qed.

Lemma beforeTool_registered_tool {rt : JsRuntime} tool_name (args : obj)
    (s : State) :
  tool_name ∈ registered_tools ->
  guard_verdict (bt_args (beforeTool tool_name args s)) s = (true, None) ->
  bt_return (beforeTool tool_name args s) = None.
Proof.
  intros Hin Hg. rewrite beforeTool_args in Hg.
  rewrite beforeTool_unfold. cbv zeta. cbn [bt_return]. rewrite Hg.
  assert (Hs : String.eqb tool_name "sync_ask_for_approval" = false).
  { apply String.eqb_neq. intros ->.
    now apply guarded_names_not_registered in Hin. }
  assert (Hm : String.eqb tool_name "modify_cart" = false).
  { apply String.eqb_neq. intros ->.
    now apply guarded_names_not_registered in Hin. }
  now rewrite Hs, Hm.
Qed.

(** ** Runs of the reference session *)

(** Eleven requests one second apart: the first ten go through, the
    eleventh waits 61 - 10 seconds. *)
Example eleventh_request_waits :
  exists d,
    run_timeouts ∅
      (map sample_invocation
         [1000; 2000; 3000; 4000; 5000; 6000; 7000; 8000; 9000; 10000; 11000])
    = [None; None; None; None; None; None; None; None; None; None; Some d]
    /\ (d == 51000)%Q.
Proof. eexists. split; [vm_compute; reflexivity|vm_compute; reflexivity]. Qed.

(** An eleventh request long after the window began does not wait. *)
Example late_request_does_not_wait :
  rl_timeout_ms (rateLimitCallback 500000 500000 (Some sample_request) full_window)
  = None.
Proof. vm_compute. reflexivity. Qed.

(** Bootstrap, then a discount request of value 5 for customer 123: the
    guard passes and the request is approved without the tool. *)
Example end_to_end_discount :
  let call :=
    @dispatch Reference.runtime (fun _ => VUndefined) "sync_ask_for_approval"
      [ ("customer_id", VStr "123"); ("discountType", VStr "Percentage");
        ("value", VNum 5%Q) ]
      bound_session in
  dr_invoked call = false
  /\ get_prop (dr_result call) "status" = VStr "approved"
  /\ dr_args call
     = [ ("customer_id", VStr "123"); ("discountType", VStr "percentage");
         ("value", VNum 5%Q) ]
  /\ dr_console call = [ "Applying discount to the cart"%string ].
Proof. vm_compute. repeat split; reflexivity. Qed.

(** * Further properties of the callbacks *)

(** ** Rate limiter: invocations without contents, the request, the frame *)

Lemma run_timeouts_skip (s : State) invs :
  Forall (fun i => admitted i = false) invs ->
  run_invocations s invs = s
  /\ Forall (fun t => t = None) (run_timeouts s invs).
Proof.
  induction 1 as [|i invs Hi _ IH]; simpl; [split; [reflexivity|constructor]|].
  destruct (invoke_skip s i Hi) as [Hs Ht].
  unfold run_invocations in *. simpl. rewrite Hs, Ht.
  destruct IH as [IH1 IH2]. split; [exact IH1|]. constructor; auto.
Qed.

(** X1: an invocation whose request is missing or has no contents hands
    the request back, changes nothing in the session, suspends nobody and
    returns [undefined]; such invocations do not count towards the quota:
    a run leaves the session as the run of its admitted invocations alone
    does. *)
Theorem skipped_invocations_do_not_count (s : State) (invs : list Invocation) :
  (forall i, admitted i = false ->
     rl_state (invoke s i) = s
     /\ rl_timeout_ms (invoke s i) = None
     /\ rl_request (invoke s i) = inv_request i
     /\ rl_return (invoke s i) = None)
  /\ run_invocations s invs = run_invocations s (List.filter admitted invs).
Proof.
  split.
  - intros i Ha. unfold invoke. rewrite rateLimitCallback_skip; [auto|].
    unfold admitted in Ha.
    destruct (inv_request i) as [r|]; [|now left]. right.
    exists r. split; [reflexivity|]. now destruct (contents r).
  - revert s. induction invs as [|i invs IH]; intros s; [reflexivity|].
    simpl. destruct (admitted i) eqn:Ha.
    + unfold run_invocations in *. simpl. apply IH.
    + destruct (invoke_skip s i Ha) as [Hs _].
      unfold run_invocations in *. simpl. rewrite Hs. apply IH.
Qed.

Lemma skipped_invocations_do_not_count_witness :
  run_invocations ∅
    [ sample_invocation 1000;
      {| inv_now_ms := 2000; inv_wake_ms := 2000; inv_request := None |};
      {| inv_now_ms := 3000; inv_wake_ms := 3000;
         inv_request := Some {| contents := None |} |};
      sample_invocation 4000 ]
  = run_invocations ∅ [ sample_invocation 1000; sample_invocation 4000 ]
  /\ rl_state (invoke full_window
                 {| inv_now_ms := 2000; inv_wake_ms := 2000;
                    inv_request := None |}) = full_window.
Proof.
  split.
  - destruct (skipped_invocations_do_not_count ∅
                [ sample_invocation 1000;
                  {| inv_now_ms := 2000; inv_wake_ms := 2000;
                     inv_request := None |};
                  {| inv_now_ms := 3000; inv_wake_ms := 3000;
                     inv_request := Some {| contents := None |} |};
                  sample_invocation 4000 ]) as [_ H].
    exact H.
  - destruct (skipped_invocations_do_not_count full_window []) as [H _].
    apply H. reflexivity.
Defined.

Lemma blank_part_filled p : part_blank (blank_part p) = false.
Proof.
  unfold blank_part, part_blank. destruct (part_text p) as [t|] eqn:E.
  - destruct (String.eqb t EmptyString) eqn:Et; simpl; [reflexivity|].
    now rewrite E, Et.
  - now rewrite E.
Qed.

Lemma blank_part_keeps p : part_blank p = false -> blank_part p = p.
Proof.
  unfold blank_part, part_blank. destruct (part_text p) as [t|]; [|reflexivity].
  now intros ->.
Qed.

Lemma rl_request_admitted now_ms wake_ms r cs (s : State) :
  contents r = Some cs ->
  rl_request (rateLimitCallback now_ms wake_ms (Some r) s)
  = Some {| contents := Some (map blank_content cs) |}.
Proof.
  intros Hr. unfold rateLimitCallback. rewrite Hr.
  destruct (negb (state_has s "timer_start")); [reflexivity|].
  destruct (Qlt_bool RPM_QUOTA (requestCount s)); reflexivity.
Qed.

(** X2: whatever the state of the window, an admitted request comes back
    with every empty text replaced by a single space and nothing else
    changed: as many contents and parts as before, parts without text and
    parts with a non-empty text as they were; a request that has no empty
    text comes back as it was. *)
Theorem empty_text_is_blanked now_ms wake_ms r cs (s : State) :
  contents r = Some cs ->
  exists cs',
    rl_request (rateLimitCallback now_ms wake_ms (Some r) s)
    = Some {| contents := Some cs' |}
    /\ contents_filled cs'
    /\ length cs' = length cs
    /\ (forall i c c', cs !! i = Some c -> cs' !! i = Some c' ->
        match parts c, parts c' with
        | Some ps, Some ps' =>
            length ps' = length ps
            /\ forall j p p', ps !! j = Some p -> ps' !! j = Some p' ->
               p' = (if part_blank p then {| part_text := Some " " |} else p)
        | None, None => True
        | _, _ => False
        end)
    /\ (contents_filled cs -> cs' = cs).
Proof.
  intros Hr. exists (map blank_content cs).
  split; [now apply rl_request_admitted|]. split; [|split; [|split]].
  - unfold contents_filled. apply Forall_map. apply Forall_forall.
    intros c _ ps. unfold blank_content.
    destruct (parts c) as [ps0|] eqn:E; simpl.
    + intros [= <-]. apply Forall_map. apply Forall_forall.
      intros p _. apply blank_part_filled.
    + rewrite E. discriminate.
  - apply length_map.
  - intros i c c' Hc Hc'. rewrite list_lookup_fmap, Hc in Hc'.
    injection Hc' as <-. unfold blank_content.
    destruct (parts c) as [ps|] eqn:E; simpl; [|now rewrite E].
    split; [apply length_map|]. intros j p p' Hp Hp'.
    rewrite list_lookup_fmap, Hp in Hp'. injection Hp' as <-.
    unfold blank_part, part_blank.
    destruct (part_text p) as [t|]; [|reflexivity].
    now destruct (String.eqb t EmptyString).
  - intros Hfilled. rewrite <- (map_id cs) at 2. apply map_ext_in.
    intros c Hc. unfold contents_filled in Hfilled.
    rewrite List.Forall_forall in Hfilled. specialize (Hfilled c Hc).
    unfold blank_content. destruct c as [[ps|]]; simpl in *; [|reflexivity].
    do 2 f_equal. specialize (Hfilled ps eq_refl).
    rewrite <- (map_id ps) at 2. apply map_ext_in. intros p Hp.
    rewrite List.Forall_forall in Hfilled. apply blank_part_keeps. auto.
Qed.

Lemma empty_text_is_blanked_witness :
  rl_request (rateLimitCallback 130000 161000 (Some sample_request) full_window)
  = Some {| contents :=
              Some [ {| parts := Some [ {| part_text := Some "hello" |};
                                        {| part_text := Some " " |};
                                        {| part_text := None |} ] |};
                     {| parts := None |} ] |}.
Proof.
  destruct (empty_text_is_blanked 130000 161000 sample_request
              [ {| parts := Some [ {| part_text := Some "hello" |};
                                   {| part_text := Some EmptyString |};
                                   {| part_text := None |} ] |};
                {| parts := None |} ] full_window eq_refl)
    as (cs' & Hreq & _).
  rewrite Hreq. f_equal.
  rewrite rl_request_admitted with (cs := _) in Hreq by reflexivity.
  now injection Hreq as <-.
Defined.

Lemma rateLimitCallback_other_keys now_ms wake_ms llmRequest (s : State) k :
  k <> "timer_start"%string -> k <> "request_count"%string ->
  rl_state (rateLimitCallback now_ms wake_ms llmRequest s) !! k = s !! k.
Proof.
  intros Ht Hc. unfold rateLimitCallback.
  destruct llmRequest as [r|]; [|reflexivity].
  destruct (contents r); [|reflexivity].
  destruct (negb (state_has s "timer_start")); simpl;
    [unfold state_set; now rewrite !lookup_insert_ne by congruence|].
  destruct (Qlt_bool RPM_QUOTA (requestCount s)); simpl; unfold state_set;
    now rewrite !lookup_insert_ne by congruence.
Qed.

(** X3: the callback writes the two rate keys and no other: every other
    key of the session reads after an invocation as it did before; and an
    invocation that neither opens nor resets the window leaves the start of
    the window as it was. *)
Theorem rate_limiter_frame now_ms wake_ms llmRequest (s : State) :
  (forall k, k <> "timer_start"%string -> k <> "request_count"%string ->
     rl_state (rateLimitCallback now_ms wake_ms llmRequest s) !! k = s !! k)
  /\ (is_Some (s !! "timer_start") -> (requestCount s <= RPM_QUOTA)%Q ->
      rl_state (rateLimitCallback now_ms wake_ms llmRequest s) !! "timer_start"
      = s !! "timer_start").
Proof.
  split.
  - intros k Ht Hc. now apply rateLimitCallback_other_keys.
  - intros Hs Hle. unfold rateLimitCallback.
    destruct llmRequest as [r|]; [|reflexivity].
    destruct (contents r); [|reflexivity].
    apply state_has_true in Hs. rewrite Hs. simpl.
    apply Qlt_bool_false_iff in Hle. rewrite Hle. simpl. unfold state_set.
    now rewrite lookup_insert_ne by discriminate.
Qed.

Lemma rate_limiter_frame_witness :
  rl_state (rateLimitCallback 130000 161000 (Some sample_request)
              (<["customer_profile" := VStr "{}"]> full_window))
    !! "customer_profile" = Some (VStr "{}")
  /\ rl_state (rateLimitCallback 130000 161000 (Some sample_request) open_window)
       !! "timer_start" = Some (VNum 100%Q).
Proof.
  split.
  - destruct (rate_limiter_frame 130000 161000 (Some sample_request)
                (<["customer_profile" := VStr "{}"]> full_window)) as [H _].
    rewrite H by discriminate. apply lookup_insert_eq.
  - destruct (rate_limiter_frame 130000 161000 (Some sample_request)
                open_window) as [_ H].
    rewrite H.
    + unfold open_window. rewrite lookup_insert_ne by discriminate.
      apply lookup_insert_eq.
    + unfold open_window. rewrite lookup_insert_ne by discriminate.
      rewrite lookup_insert_eq. eauto.
    + vm_compute. discriminate.
Defined.

(** X4: when the count exceeds the quota in a window that began at [t0],
    with the clock not behind [t0], the caller is suspended exactly when
    less than 61 seconds have passed since [t0], for the remainder of those
    61 seconds and so never longer than 61 seconds; from 61 seconds on the
    window is reset without waiting. *)
Theorem suspension_is_the_rest_of_the_window now_ms wake_ms r cs (s : State)
    t0 c :
  contents r = Some cs ->
  s !! "timer_start" = Some (VNum t0) -> ~ (t0 == 0)%Q ->
  s !! "request_count" = Some (VNum c) -> (RPM_QUOTA < c + 1)%Q ->
  (t0 <= now_ms # 1000)%Q ->
  let now := (now_ms # 1000)%Q in
  let res := rateLimitCallback now_ms wake_ms (Some r) s in
  ((now - t0 < 61)%Q ->
   exists d, rl_timeout_ms res = Some d
             /\ (d == (61 - (now - t0)) * 1000)%Q
             /\ (0 < d)%Q /\ (d <= 61000)%Q)
  /\ ((61 <= now - t0)%Q -> rl_timeout_ms res = None).
Proof.
  intros Hr Ht Hz Hc Hlt Hmono now res. subst res.
  pose proof (requestCount_Qeq s c Hc) as Hrc.
  assert (Hover : (RPM_QUOTA < requestCount s)%Q) by now rewrite Hrc.
  assert (Hsome : is_Some (s !! "timer_start")) by eauto.
  rewrite (rateLimitCallback_exceeded _ _ _ _ _ Hr Hsome Hover).
  cbn [rl_timeout_ms]. fold now.
  assert (Hd : (delay s now == 61 - (now - t0))%Q).
  { unfold delay, RATE_LIMIT_SECS. rewrite (elapsedSecs_stored s now t0 Ht Hz).
    lra. }
  split.
  - intros Hin.
    assert (Hpos : (0 < delay s now)%Q) by (rewrite Hd; lra).
    apply Qlt_bool_iff in Hpos. rewrite Hpos.
    eexists. split; [reflexivity|]. rewrite Hd.
    split; [reflexivity|]. fold now in Hmono. split; lra.
  - intros Hout.
    assert (Hneg : (delay s now <= 0)%Q) by (rewrite Hd; lra).
    apply Qlt_bool_false_iff in Hneg. now rewrite Hneg.
Qed.

Lemma suspension_is_the_rest_of_the_window_witness :
  (exists d, rl_timeout_ms
               (rateLimitCallback 130000 161000 (Some sample_request) full_window)
             = Some d /\ (d == 31000)%Q)
  /\ rl_timeout_ms
       (rateLimitCallback 161000 161000 (Some sample_request) full_window)
     = None.
Proof.
  assert (Ht : full_window !! "timer_start" = Some (VNum 100%Q)).
  { unfold full_window. rewrite lookup_insert_ne by discriminate.
    apply lookup_insert_eq. }
  assert (Hc : full_window !! "request_count" = Some (VNum 10%Q))
    by apply lookup_insert_eq.
  assert (Hz : ~ (100 == 0)%Q) by (vm_compute; discriminate).
  assert (Hq : (RPM_QUOTA < 10 + 1)%Q) by (vm_compute; reflexivity).
  split.
  - assert (Hm : (100 <= 130000 # 1000)%Q) by (vm_compute; discriminate).
    destruct (suspension_is_the_rest_of_the_window 130000 161000
                sample_request _ full_window 100%Q 10%Q eq_refl Ht Hz Hc Hq Hm)
      as [H _].
    destruct H as (d & Hd & Heq & _); [vm_compute; reflexivity|].
    exists d. split; [exact Hd|]. rewrite Heq. vm_compute. reflexivity.
  - assert (Hm : (100 <= 161000 # 1000)%Q) by (vm_compute; discriminate).
    destruct (suspension_is_the_rest_of_the_window 161000 161000
                sample_request _ full_window 100%Q 10%Q eq_refl Ht Hz Hc Hq Hm)
      as [_ H].
    apply H. vm_compute. discriminate.
Defined.

(** ** Rate limiter: the count over a long run *)

Lemma run_from_window invs (s : State) c :
  window_open s c -> 1 <= c <= 10 ->
  Forall (fun i => admitted i = true) invs ->
  window_open (run_invocations s invs)
    ((c - 1 + Z.of_nat (length invs)) mod 10 + 1)
  /\ (forall k d, run_timeouts s invs !! k = Some (Some d) ->
      (c + Z.of_nat k) mod 10 = 0).
Proof.
  revert s c. induction invs as [|i invs IH]; intros s c Hw Hc Hall.
  - simpl. rewrite Z.add_0_r, Z.mod_small by lia.
    replace (c - 1 + 1) with c by lia. split; [exact Hw|].
    intros k d Hk. now rewrite lookup_nil in Hk.
  - inversion Hall as [|? ? Ha Hall']; subst.
    destruct (Z.eq_dec c 10) as [->|Hne].
    + pose proof (invoke_exceeded s i Ha Hw) as Hw'.
      destruct (IH _ 1 Hw' ltac:(lia) Hall') as [Hfin Hts].
      split.
      * change (run_invocations s (i :: invs))
          with (run_invocations (rl_state (invoke s i)) invs).
        replace ((10 - 1 + Z.of_nat (length (i :: invs))) mod 10)
          with ((1 - 1 + Z.of_nat (length invs)) mod 10); [exact Hfin|].
        simpl length. rewrite Nat2Z.inj_succ.
        replace (10 - 1 + Z.succ (Z.of_nat (length invs)))
          with (1 - 1 + Z.of_nat (length invs) + 1 * 10) by lia.
        now rewrite Z.mod_add by lia.
      * intros [|k] d Hk; [reflexivity|].
        simpl in Hk. specialize (Hts k d Hk).
        rewrite Nat2Z.inj_succ.
        replace (10 + Z.succ (Z.of_nat k)) with (1 + Z.of_nat k + 1 * 10) by lia.
        now rewrite Z.mod_add by lia.
    + destruct (invoke_within s i c Ha Hw ltac:(lia)) as [Hw' Hto].
      destruct (IH _ (c + 1) Hw' ltac:(lia) Hall') as [Hfin Hts].
      split.
      * change (run_invocations s (i :: invs))
          with (run_invocations (rl_state (invoke s i)) invs).
        simpl length. rewrite Nat2Z.inj_succ.
        replace (c - 1 + Z.succ (Z.of_nat (length invs)))
          with (c + 1 - 1 + Z.of_nat (length invs)) by lia.
        exact Hfin.
      * intros [|k] d Hk.
        -- simpl in Hk. rewrite Hto in Hk. discriminate.
        -- simpl in Hk. specialize (Hts k d Hk). rewrite Nat2Z.inj_succ.
           replace (c + Z.succ (Z.of_nat k)) with (c + 1 + Z.of_nat k) by lia.
           exact Hts.
Qed.

(** X5: over a run of admitted invocations on a fresh session the stored
    count cycles through 1..10: after the n-th it is ((n - 1) mod 10) + 1;
    and the only invocations that can be suspended are the 11th, the 21st
    and so on, each the first of a new window. *)
Theorem count_cycles_through_the_quota (s0 : State) (invs : list Invocation) :
  s0 !! "timer_start" = None ->
  Forall (fun i => admitted i = true) invs -> invs <> [] ->
  window_open (run_invocations s0 invs)
    ((Z.of_nat (length invs) - 1) mod 10 + 1)
  /\ (forall k d, run_timeouts s0 invs !! k = Some (Some d) ->
      k <> O /\ Z.of_nat k mod 10 = 0).
Proof.
  intros Ht Hall Hne. destruct invs as [|i invs]; [congruence|].
  inversion Hall as [|? ? Ha Hall']; subst.
  destruct (invoke_first s0 i Ha Ht) as [Hw Hto].
  destruct (run_from_window invs _ 1 Hw ltac:(lia) Hall') as [Hfin Hts].
  split.
  - change (run_invocations s0 (i :: invs))
      with (run_invocations (rl_state (invoke s0 i)) invs).
    simpl length. rewrite Nat2Z.inj_succ.
    replace (Z.succ (Z.of_nat (length invs)) - 1)
      with (1 - 1 + Z.of_nat (length invs)) by lia.
    exact Hfin.
  - intros [|k] d Hk.
    + simpl in Hk. rewrite Hto in Hk. discriminate.
    + simpl in Hk. specialize (Hts k d Hk). split; [discriminate|].
      rewrite Nat2Z.inj_succ.
      replace (Z.succ (Z.of_nat k)) with (1 + Z.of_nat k) by lia. exact Hts.
Qed.

Lemma count_cycles_through_the_quota_witness :
  window_open
    (run_invocations ∅
       (map sample_invocation
          [1000; 2000; 3000; 4000; 5000; 6000; 7000; 8000; 9000; 10000;
           11000; 12000; 13000]))
    3.
Proof.
  destruct (count_cycles_through_the_quota ∅
              (map sample_invocation
                 [1000; 2000; 3000; 4000; 5000; 6000; 7000; 8000; 9000; 10000;
                  11000; 12000; 13000])) as [H _].
  - reflexivity.
  - repeat constructor.
  - discriminate.
  - exact H.
Defined.

(** ** Identity guard: kinds of failure, independence, bootstrap *)

Lemma beforeAgent_lookup {rt : JsRuntime} (s : State) k :
  k <> "customer_profile"%string -> beforeAgent s !! k = s !! k.
Proof.
  intros Hk. unfold beforeAgent.
  destruct (negb (state_has s "customer_profile")); [|reflexivity].
  simpl. unfold state_set. now rewrite lookup_insert_ne by congruence.
Qed.

Lemma rateLimitCallback_reads_rate_keys now_ms wake_ms llmRequest (s1 s2 : State) :
  s1 !! "timer_start" = s2 !! "timer_start" ->
  s1 !! "request_count" = s2 !! "request_count" ->
  rl_timeout_ms (rateLimitCallback now_ms wake_ms llmRequest s1)
  = rl_timeout_ms (rateLimitCallback now_ms wake_ms llmRequest s2)
  /\ rl_request (rateLimitCallback now_ms wake_ms llmRequest s1)
     = rl_request (rateLimitCallback now_ms wake_ms llmRequest s2)
  /\ rl_state (rateLimitCallback now_ms wake_ms llmRequest s1) !! "timer_start"
     = rl_state (rateLimitCallback now_ms wake_ms llmRequest s2) !! "timer_start"
  /\ rl_state (rateLimitCallback now_ms wake_ms llmRequest s1) !! "request_count"
     = rl_state (rateLimitCallback now_ms wake_ms llmRequest s2) !! "request_count".
Proof.
  intros Ht Hc.
  assert (Hhas : state_has s1 "timer_start" = state_has s2 "timer_start")
    by (unfold state_has; now rewrite Ht).
  assert (Hrc : requestCount s1 = requestCount s2)
    by (unfold requestCount, state_get_number; now rewrite Hc).
  assert (Hd : forall now, delay s1 now = delay s2 now)
    by (intros now; unfold delay, elapsedSecs, state_get_number; now rewrite Ht).
  unfold rateLimitCallback.
  destruct llmRequest as [r|]; [|auto].
  destruct (contents r); [|auto].
  rewrite Hhas, Hrc, Hd.
  destruct (negb (state_has s2 "timer_start")); simpl.
  { unfold state_set. rewrite !lookup_insert_eq.
    rewrite !(lookup_insert_ne _ "request_count" "timer_start") by discriminate.
    rewrite !lookup_insert_eq. auto. }
  destruct (Qlt_bool RPM_QUOTA (requestCount s2)); simpl; unfold state_set.
  - rewrite !lookup_insert_eq.
    rewrite !(lookup_insert_ne _ "request_count" "timer_start") by discriminate.
    rewrite !lookup_insert_eq. auto.
  - rewrite !lookup_insert_eq.
    rewrite !(lookup_insert_ne _ "request_count" "timer_start") by discriminate.
    auto.
Qed.

Section GuardProperties.
Context {rt : JsRuntime}.

Lemma mismatch_message_head a b :
  exists rest, mismatch_message a b = String "Y" rest.
Proof. unfold mismatch_message. simpl. eauto. Qed.

Lemma validateCustomerId_reads_profile customerId (s1 s2 : State) :
  s1 !! "customer_profile" = s2 !! "customer_profile" ->
  validateCustomerId customerId s1 = validateCustomerId customerId s2.
Proof. intros H. rewrite !validateCustomerId_unfold. now rewrite H. Qed.

Lemma validateCustomerId_not_mismatch customerId (s : State) msg :
  validateCustomerId customerId s = (false, Some msg) ->
  (forall rest, msg <> String "Y" rest) ->
  forall c, bound_profile s = Some c ->
    strict_eq customerId (customer_id c) = false
    /\ ToString_throws customerId || ToString_throws (customer_id c) = true.
Proof.
  intros H Hmsg c Hb. rewrite (validateCustomerId_bound _ _ _ Hb) in H.
  destruct (strict_eq customerId (customer_id c)); [discriminate|].
  split; [reflexivity|].
  destruct (ToString_throws customerId || ToString_throws (customer_id c));
    [reflexivity|].
  destruct (mismatch_message_head customerId (customer_id c)) as [rest Hm].
  rewrite Hm in H. inversion H as [E]. now destruct (Hmsg rest).
Qed.

Lemma validateCustomerId_unbound_truthy customerId (s : State) v :
  s !! "customer_profile" = Some v -> truthy v = true ->
  bound_profile s = None ->
  validateCustomerId customerId s = (false, Some PARSE_MESSAGE).
Proof.
  intros Hs Hv Hb. rewrite validateCustomerId_unfold, Hs, Hv.
  unfold bound_profile in Hb. rewrite Hs, Hv in Hb.
  destruct (ToString_throws v); [reflexivity|]. cbn [negb andb] in Hb.
  destruct (JSON_parse (ToString v)); [|reflexivity].
  now rewrite Hb.
Qed.

(** X6: the three fixed failure messages and the situations they stand
    for.  The guard answers with the no-profile message exactly when the
    session has no customer_profile key, and with the empty-profile message
    exactly when the key holds a falsy value.  It answers with the parse
    message exactly when the key holds a truthy value and something inside
    the [try] block throws: no customer can be built from the stored value
    (which includes a stored text that parses to [null]), or one can, the
    id handed in is not strictly equal to the bound one, and one of the two
    ids cannot be converted to text for the mismatch message, as an object
    whose own property toString hides the method.  When both ids convert,
    a bound profile and an id that differs give the mismatch message, which
    is none of the three. *)
Theorem guard_failure_kinds (customerId : jsval) (s : State) :
  (validateCustomerId customerId s = (false, Some NO_PROFILE_MESSAGE)
   <-> s !! "customer_profile" = None)
  /\ (validateCustomerId customerId s = (false, Some EMPTY_PROFILE_MESSAGE)
      <-> exists v, s !! "customer_profile" = Some v /\ truthy v = false)
  /\ (validateCustomerId customerId s = (false, Some PARSE_MESSAGE)
      <-> exists v, s !! "customer_profile" = Some v /\ truthy v = true
                    /\ (bound_profile s = None
                        \/ exists c,
                             bound_profile s = Some c
                             /\ strict_eq customerId (customer_id c) = false
                             /\ (ToString_throws customerId = true
                                 \/ ToString_throws (customer_id c) = true)))
  /\ (forall v, s !! "customer_profile" = Some v -> truthy v = true ->
      JSON_parse (ToString v) = Some VNull ->
      validateCustomerId customerId s = (false, Some PARSE_MESSAGE))
  /\ (forall c, bound_profile s = Some c ->
      strict_eq customerId (customer_id c) = false ->
      ToString_throws customerId = false ->
      ToString_throws (customer_id c) = false ->
      validateCustomerId customerId s
      = (false, Some (mismatch_message customerId (customer_id c)))
      /\ mismatch_message customerId (customer_id c) <> NO_PROFILE_MESSAGE
      /\ mismatch_message customerId (customer_id c) <> EMPTY_PROFILE_MESSAGE
      /\ mismatch_message customerId (customer_id c) <> PARSE_MESSAGE).
Proof.
  split; [|split; [|split; [|split]]].
  - split.
    + intros H.
      destruct (s !! "customer_profile") as [v|] eqn:Hs; [exfalso|reflexivity].
      destruct (bound_profile s) as [c|] eqn:Hb.
      * destruct (validateCustomerId_not_mismatch _ _ _ H) with (c := c)
          as [Hne Ht]; [discriminate|exact Hb|].
        rewrite (validateCustomerId_bound _ _ _ Hb), Hne, Ht in H.
        discriminate.
      * destruct (truthy v) eqn:Hv.
        -- rewrite (validateCustomerId_unbound_truthy _ _ _ Hs Hv Hb) in H.
           discriminate.
        -- rewrite validateCustomerId_unfold, Hs, Hv in H. discriminate.
    + intros Hs. now rewrite validateCustomerId_unfold, Hs.
  - split.
    + intros H.
      destruct (s !! "customer_profile") as [v|] eqn:Hs.
      2: { rewrite validateCustomerId_unfold, Hs in H. discriminate. }
      exists v. split; [reflexivity|].
      destruct (truthy v) eqn:Hv; [exfalso|reflexivity].
      destruct (bound_profile s) as [c|] eqn:Hb.
      * destruct (validateCustomerId_not_mismatch _ _ _ H) with (c := c)
          as [Hne Ht]; [discriminate|exact Hb|].
        rewrite (validateCustomerId_bound _ _ _ Hb), Hne, Ht in H.
        discriminate.
      * rewrite (validateCustomerId_unbound_truthy _ _ _ Hs Hv Hb) in H.
        discriminate.
    + intros (v & Hs & Hv). now rewrite validateCustomerId_unfold, Hs, Hv.
  - split.
    + intros H.
      destruct (s !! "customer_profile") as [v|] eqn:Hs.
      2: { rewrite validateCustomerId_unfold, Hs in H. discriminate. }
      exists v. split; [reflexivity|].
      assert (Hv : truthy v = true).
      { rewrite validateCustomerId_unfold, Hs in H.
        destruct (truthy v); [reflexivity|discriminate]. }
      split; [exact Hv|].
      destruct (bound_profile s) as [c|] eqn:Hb; [right|now left].
      exists c.
      destruct (validateCustomerId_not_mismatch _ _ _ H) with (c := c)
        as [Hne Ht]; [discriminate|exact Hb|].
      split; [reflexivity|]. split; [exact Hne|].
      now apply orb_true_iff in Ht.
    + intros (v & Hs & Hv & [Hb|(c & Hb & Hne & Ht)]).
      * exact (validateCustomerId_unbound_truthy _ _ _ Hs Hv Hb).
      * rewrite (validateCustomerId_bound _ _ _ Hb), Hne.
        apply orb_true_iff in Ht. now rewrite Ht.
  - intros v Hs Hv Hp. rewrite validateCustomerId_unfold, Hs, Hv, Hp.
    destruct (ToString_throws v); reflexivity.
  - intros c Hb Hne Ht Ht'.
    rewrite (validateCustomerId_bound _ _ _ Hb), Hne, Ht, Ht'.
    split; [reflexivity|].
    destruct (mismatch_message_head customerId (customer_id c)) as [rest ->].
    repeat split; discriminate.
Qed.
End GuardProperties.

Lemma guard_failure_kinds_witness :
  @validateCustomerId Reference.runtime (VStr "123") null_profile_session
  = (false, Some PARSE_MESSAGE)
  /\ @validateCustomerId Reference.runtime (VStr "123") ∅
     = (false, Some NO_PROFILE_MESSAGE)
  /\ @validateCustomerId Reference.runtime (VObj [ ("toString", VNum 1) ])
       bound_session
     = (false, Some PARSE_MESSAGE)
  /\ @validateCustomerId Reference.runtime (VObj []) bound_session
     = (false,
        Some "You cannot use the tool with customer_id [object Object], only for 123.").
Proof.
  assert (Hb : exists c, @bound_profile Reference.runtime bound_session = Some c
                         /\ customer_id c = VStr "123").
  { vm_compute. eexists. split; reflexivity. }
  destruct Hb as (c & Hb & Hid).
  split; [|split; [|split]].
  - destruct (@guard_failure_kinds Reference.runtime (VStr "123")
                null_profile_session) as (_ & _ & _ & H & _).
    apply (H (VStr "null")); reflexivity.
  - destruct (@guard_failure_kinds Reference.runtime (VStr "123") ∅)
      as (H & _).
    apply H. reflexivity.
  - destruct (@guard_failure_kinds Reference.runtime
                (VObj [ ("toString", VNum 1) ]) bound_session)
      as (_ & _ & H & _).
    apply H. eexists. split; [reflexivity|]. split; [reflexivity|].
    right. exists c. split; [exact Hb|]. rewrite Hid.
    split; [reflexivity|]. now left.
  - destruct (@guard_failure_kinds Reference.runtime (VObj []) bound_session)
      as (_ & _ & _ & _ & H).
    destruct (H c Hb) as [Hm _]; try (rewrite Hid; reflexivity); [reflexivity|].
    rewrite Hm, Hid. reflexivity.
Defined.

Section GuardComposition.
Context {rt : JsRuntime}.

(** X7: the guard and the rate limiter do not interfere: the verdict of
    the guard depends on the customer_profile key alone, so no invocation
    of the rate limiter changes it; and the rate limiter reads the two rate
    keys alone, so it suspends, and counts, the same before and after the
    bootstrap hook. *)
Theorem guard_and_limiter_do_not_interfere (s : State) :
  (forall customerId k v, k <> "customer_profile"%string ->
     validateCustomerId customerId (<[k := v]> s)
     = validateCustomerId customerId s)
  /\ (forall customerId now_ms wake_ms llmRequest,
        validateCustomerId customerId
          (rl_state (rateLimitCallback now_ms wake_ms llmRequest s))
        = validateCustomerId customerId s)
  /\ (forall now_ms wake_ms llmRequest,
        rl_timeout_ms (rateLimitCallback now_ms wake_ms llmRequest (beforeAgent s))
        = rl_timeout_ms (rateLimitCallback now_ms wake_ms llmRequest s)
        /\ rl_state (rateLimitCallback now_ms wake_ms llmRequest (beforeAgent s))
             !! "request_count"
           = rl_state (rateLimitCallback now_ms wake_ms llmRequest s)
               !! "request_count"
        /\ rl_state (rateLimitCallback now_ms wake_ms llmRequest (beforeAgent s))
             !! "timer_start"
           = rl_state (rateLimitCallback now_ms wake_ms llmRequest s)
               !! "timer_start").
Proof.
  split; [|split].
  - intros customerId k v Hk. apply validateCustomerId_reads_profile.
    now rewrite lookup_insert_ne by congruence.
  - intros customerId now_ms wake_ms llmRequest.
    apply validateCustomerId_reads_profile.
    now apply rateLimitCallback_other_keys.
  - intros now_ms wake_ms llmRequest.
    destruct (rateLimitCallback_reads_rate_keys now_ms wake_ms llmRequest
                (beforeAgent s) s) as (H1 & _ & H2 & H3);
      [now apply beforeAgent_lookup..|].
    auto.
Qed.

(** X8: the bootstrap hook is idempotent, always leaves a customer_profile
    key behind and touches no other key; a value already stored under the
    key is kept whatever it is, so a session whose stored profile is empty
    still fails the guard with the empty-profile message after the hook. *)
Theorem beforeAgent_keeps_what_is_stored (s : State) :
  beforeAgent (beforeAgent s) = beforeAgent s
  /\ is_Some (beforeAgent s !! "customer_profile")
  /\ (forall k, k <> "customer_profile"%string -> beforeAgent s !! k = s !! k)
  /\ (forall v, s !! "customer_profile" = Some v ->
      beforeAgent s !! "customer_profile" = Some v)
  /\ (forall customerId v,
        s !! "customer_profile" = Some v -> truthy v = false ->
        validateCustomerId customerId (beforeAgent s)
        = (false, Some EMPTY_PROFILE_MESSAGE)).
Proof.
  assert (Hsome : is_Some (beforeAgent s !! "customer_profile")).
  { unfold beforeAgent. destruct (state_has s "customer_profile") eqn:E; simpl.
    - now apply state_has_true in E.
    - unfold state_set. rewrite lookup_insert_eq. eauto. }
  assert (Hkeep : forall (s' : State) v,
             s' !! "customer_profile" = Some v -> beforeAgent s' = s').
  { intros s' v Hv. unfold beforeAgent.
    assert (E : state_has s' "customer_profile" = true)
      by (apply state_has_true; eauto).
    now rewrite E. }
  split; [|split; [exact Hsome|split; [|split]]].
  - destruct Hsome as [v Hv]. exact (Hkeep _ v Hv).
  - intros k Hk. now apply beforeAgent_lookup.
  - intros v Hv. now rewrite (Hkeep _ v Hv).
  - intros customerId v Hv Hf. rewrite (Hkeep _ v Hv).
    now rewrite validateCustomerId_unfold, Hv, Hf.
Qed.

(** X9: bootstrap and guard together: on a session without profile, under
    a runtime whose [JSON.parse] reads what its [JSON.stringify] wrote for
    the default customer back as an object with customer_id 123, the guard
    after [beforeAgent] passes the id 123 and rejects every other string id
    with the message naming that id and 123. *)
Theorem bootstrap_then_guard (s : State) c d :
  s !! "customer_profile" = None ->
  getCustomer "123" = Some c ->
  JSON_stringify (Customer_object c) 4 <> EmptyString ->
  JSON_parse (JSON_stringify (Customer_object c) 4) = Some d ->
  get_prop d "customer_id" = VStr "123" ->
  validateCustomerId (VStr "123") (beforeAgent s) = (true, None)
  /\ (forall other, other <> "123"%string ->
      validateCustomerId (VStr other) (beforeAgent s)
      = (false,
         Some ("You cannot use the tool with customer_id " ++ other
                 ++ ", only for 123.")%string)).
Proof.
  intros Hs Hc Hne Hp Hid.
  assert (Hb : beforeAgent s
               = <["customer_profile" :=
                     VStr (JSON_stringify (Customer_object c) 4)]> s).
  { unfold beforeAgent. apply state_has_false in Hs. rewrite Hs.
    cbn [negb]. now rewrite Hc. }
  assert (Hcust : exists c', Customer_new d = Some c'
                             /\ customer_id c' = VStr "123").
  { destruct d; simpl in Hid; try discriminate.
    eexists. split; [reflexivity|]. exact Hid. }
  destruct Hcust as (c' & Hc' & Hid').
  assert (Hbound : bound_profile (beforeAgent s) = Some c').
  { unfold bound_profile. rewrite Hb, lookup_insert_eq. simpl.
    apply String.eqb_neq in Hne. rewrite Hne. simpl. now rewrite Hp. }
  split.
  - rewrite (validateCustomerId_bound _ _ _ Hbound), Hid'. reflexivity.
  - intros other Hother.
    rewrite (validateCustomerId_bound _ _ _ Hbound), Hid'. simpl.
    apply String.eqb_neq in Hother. rewrite Hother. reflexivity.
Qed.
End GuardComposition.

Lemma guard_and_limiter_do_not_interfere_witness :
  @validateCustomerId Reference.runtime (VStr "123")
    (<["request_count" := VNum 7%Q]> bound_session) = (true, None).
Proof.
  destruct (@guard_and_limiter_do_not_interfere Reference.runtime bound_session)
    as (H & _).
  rewrite H by discriminate. vm_compute. reflexivity.
Defined.

Lemma beforeAgent_keeps_what_is_stored_witness :
  @validateCustomerId Reference.runtime (VStr "123")
    (@beforeAgent Reference.runtime empty_profile_session)
  = (false, Some EMPTY_PROFILE_MESSAGE)
  /\ @beforeAgent Reference.runtime full_window !! "request_count"
     = Some (VNum 10%Q).
Proof.
  split.
  - destruct (@beforeAgent_keeps_what_is_stored Reference.runtime
                empty_profile_session) as (_ & _ & _ & _ & H).
    apply (H (VStr "123") (VStr EmptyString)); reflexivity.
  - destruct (@beforeAgent_keeps_what_is_stored Reference.runtime full_window)
      as (_ & _ & H & _).
    rewrite H by discriminate. apply lookup_insert_eq.
Defined.

Lemma bootstrap_then_guard_witness :
  @validateCustomerId Reference.runtime (VStr "123")
    (@beforeAgent Reference.runtime ∅) = (true, None)
  /\ @validateCustomerId Reference.runtime (VStr "abc")
       (@beforeAgent Reference.runtime ∅)
     = (false,
        Some "You cannot use the tool with customer_id abc, only for 123.").
Proof.
  assert (H : exists c d,
             getCustomer "123" = Some c
             /\ Reference.json_stringify (Customer_object c) 4 <> EmptyString
             /\ Reference.json_parse
                  (Reference.json_stringify (Customer_object c) 4) = Some d
             /\ get_prop d "customer_id" = VStr "123").
  { eexists. eexists. split; [reflexivity|]. split; [vm_compute; discriminate|].
    split; vm_compute; reflexivity. }
  destruct H as (c & d & Hc & Hne & Hp & Hid).
  destruct (@bootstrap_then_guard Reference.runtime ∅ c d
              (lookup_empty _) Hc Hne Hp Hid)
    as [H123 Hother].
  split; [exact H123|]. apply (Hother "abc"). discriminate.
Defined.

(** ** Customer entity *)

Lemma Customer_new_object (c : Customer) :
  truthy (scheduled_appointments c) = true ->
  Customer_new (Customer_object c) = Some c.
Proof.
  intros H. destruct c. simpl in *. unfold js_or. now rewrite H.
Qed.

(** X10: the constructor fails only on [null] and [undefined]; from any
    other value it builds a customer each of whose fifteen fields is the
    value's property of the same name, [undefined] where the value has
    none, except that scheduled_appointments is never falsy: a missing or
    falsy one becomes the empty object.  Building a customer again from a
    built one gives the same customer. *)
Theorem Customer_constructor (data : jsval) :
  (Customer_new data = None <-> data = VNull \/ data = VUndefined)
  /\ (forall c, Customer_new data = Some c ->
      account_number c = get_prop data "account_number"
      /\ customer_id c = get_prop data "customer_id"
      /\ customer_first_name c = get_prop data "customer_first_name"
      /\ customer_last_name c = get_prop data "customer_last_name"
      /\ email c = get_prop data "email"
      /\ phone_number c = get_prop data "phone_number"
      /\ customer_start_date c = get_prop data "customer_start_date"
      /\ years_as_customer c = get_prop data "years_as_customer"
      /\ billing_address c = get_prop data "billing_address"
      /\ purchase_history c = get_prop data "purchase_history"
      /\ loyalty_points c = get_prop data "loyalty_points"
      /\ preferred_store c = get_prop data "preferred_store"
      /\ communication_preferences c
         = get_prop data "communication_preferences"
      /\ garden_profile c = get_prop data "garden_profile"
      /\ scheduled_appointments c
         = (if truthy (get_prop data "scheduled_appointments")
            then get_prop data "scheduled_appointments" else VObj [])
      /\ truthy (scheduled_appointments c) = true
      /\ Customer_new (Customer_object c) = Some c).
Proof.
  split.
  - destruct data; simpl; split; try discriminate; auto;
      intros [H|H]; discriminate.
  - intros c Hc.
    assert (Hc' : c = {| account_number := get_prop data "account_number";
                         customer_id := get_prop data "customer_id";
                         customer_first_name :=
                           get_prop data "customer_first_name";
                         customer_last_name := get_prop data "customer_last_name";
                         email := get_prop data "email";
                         phone_number := get_prop data "phone_number";
                         customer_start_date :=
                           get_prop data "customer_start_date";
                         years_as_customer := get_prop data "years_as_customer";
                         billing_address := get_prop data "billing_address";
                         purchase_history := get_prop data "purchase_history";
                         loyalty_points := get_prop data "loyalty_points";
                         preferred_store := get_prop data "preferred_store";
                         communication_preferences :=
                           get_prop data "communication_preferences";
                         garden_profile := get_prop data "garden_profile";
                         scheduled_appointments :=
                           js_or (get_prop data "scheduled_appointments")
                             (VObj []) |})
      by (destruct data; cbn [Customer_new] in Hc; congruence).
    assert (Htruthy : truthy (scheduled_appointments c) = true).
    { rewrite Hc'. cbn [scheduled_appointments]. unfold js_or.
      destruct (truthy (get_prop data "scheduled_appointments")) eqn:E;
        [exact E|reflexivity]. }
    repeat match goal with |- _ /\ _ => split end;
      try (rewrite Hc'; reflexivity).
    + exact Htruthy.
    + now apply Customer_new_object.
Qed.

Lemma Customer_constructor_witness :
  exists c,
    Customer_new (VObj [ ("customer_id", VStr "7");
                         ("email", VStr "sam@example.com");
                         ("scheduled_appointments", VNull) ]) = Some c
    /\ customer_id c = VStr "7"
    /\ email c = VStr "sam@example.com"
    /\ account_number c = VUndefined
    /\ garden_profile c = VUndefined
    /\ scheduled_appointments c = VObj [].
Proof.
  eexists. split; [reflexivity|].
  destruct (Customer_constructor
              (VObj [ ("customer_id", VStr "7");
                      ("email", VStr "sam@example.com");
                      ("scheduled_appointments", VNull) ])) as [_ H].
  destruct (H _ eq_refl)
    as (H1 & H2 & _ & _ & H5 & _ & _ & _ & _ & _ & _ & _ & _ & H14 & H15 & _).
  split; [exact H2|]. split; [exact H5|]. split; [exact H1|].
  split; [exact H14|exact H15].
Defined.

(** The lookup never answers [null]: for every id, known or not, it
    returns the same dummy customer carrying that id; two lookups differ in
    customer_id and in nothing else. *)
Theorem getCustomer_never_fails (currentCustomerId : string) :
  exists c,
    getCustomer currentCustomerId = Some c
    /\ customer_id c = VStr currentCustomerId
    /\ NoDup (obj_keys (entries_of (Customer_object c)))
    /\ forall other, exists c',
         getCustomer other = Some c'
         /\ Customer_object c'
            = VObj (obj_set (entries_of (Customer_object c)) "customer_id"
                      (VStr other)).
Proof.
  eexists. split; [reflexivity|]. split; [reflexivity|]. split.
  - simpl. apply (bool_decide_eq_true_1 _). vm_compute. reflexivity.
  - intros other. eexists. split; reflexivity.
Qed.

(** ** Argument normalizer: what it hands on *)

(** X11: on a plain tree (in every object the names are distinct and none
    is __proto__, every string is ASCII text) the normalizer is the walk
    of the specification: the keys of every object and the order and length
    of every array are kept, every scalar that is not a string is kept,
    every string leaf is lowercased, the result is a plain tree again and
    normalizing it once more changes nothing. *)
Theorem lowercaseValue_on_plain_trees (x : jsval) :
  plain_tree x = true ->
  lowercaseValue x = normalize_spec x
  /\ skeleton (lowercaseValue x) = skeleton x
  /\ string_leaves (lowercaseValue x) = map toLowerCase (string_leaves x)
  /\ plain_tree (lowercaseValue x) = true
  /\ lowercaseValue (lowercaseValue x) = lowercaseValue x.
Proof.
  intros Hp. rewrite (lowercaseValue_normalize_spec x Hp).
  split; [reflexivity|]. split; [apply skeleton_normalize_spec|].
  split; [apply string_leaves_normalize_spec|].
  split; [now apply normalize_spec_plain|].
  rewrite <- (lowercaseValue_normalize_spec x Hp). apply lowercaseValue_idem.
Qed.

Lemma lowercaseValue_on_plain_trees_witness :
  plain_tree sample_args = true
  /\ lowercaseValue sample_args
     = VObj [ ("customer_id", VStr "abc-123");
              ("Items", VArr [ VStr "rose bush"; VNum 3%Q; VNull; VBool true ]);
              ("details", VObj [ ("Note", VStr "leave at door") ]) ]
  /\ string_leaves (lowercaseValue sample_args)
     = [ "abc-123"; "rose bush"; "leave at door" ]%string.
Proof.
  assert (Hp : plain_tree sample_args = true) by (vm_compute; reflexivity).
  destruct (lowercaseValue_on_plain_trees sample_args Hp)
    as (Hspec & _ & Hleaves & _).
  split; [exact Hp|]. split.
  - rewrite Hspec. reflexivity.
  - rewrite Hleaves. reflexivity.
Defined.

(** ** Pre-dispatch hook: re-entry, the cart branch, edge values *)

Section BeforeToolProperties.
Context {rt : JsRuntime}.



Lemma strict_eq_true_bool v : strict_eq v (VBool true) = true <-> v = VBool true.
Proof.
  destruct v as [| |b| | | |]; simpl; split; try discriminate; try congruence.
  - destruct b; [reflexivity|discriminate].
  - now intros [= ->].
Qed.

Lemma beforeTool_modify_cart (args : obj) (s : State) :
  let a := bt_args (beforeTool "modify_cart" args s) in
  guard_verdict a s = (true, None) ->
  bt_return (beforeTool "modify_cart" args s)
  = if strict_eq (get_prop (VObj a) "items_added") (VBool true)
       && strict_eq (get_prop (VObj a) "items_removed") (VBool true)
    then Some MODIFY_CART_RESULT else None.
Proof.
  intros a Hg. subst a. rewrite beforeTool_args in *.
  rewrite beforeTool_unfold. cbv zeta. cbn [bt_return]. rewrite Hg.
  change (String.eqb "modify_cart" "sync_ask_for_approval") with false.
  change (String.eqb "modify_cart" "modify_cart") with true.
  reflexivity.
Qed.

(** X13: for the tool named modify_cart and arguments that pass the guard,
    [beforeTool] answers with the canned confirmation exactly when both
    items_added and items_removed are the boolean [true] (a string such as
    true does not count), and has no answer otherwise. *)
Theorem modify_cart_short_circuit (args : obj) (s : State) :
  let a := bt_args (beforeTool "modify_cart" args s) in
  guard_verdict a s = (true, None) ->
  (bt_return (beforeTool "modify_cart" args s)
   = Some [ ("result", VStr "I have added and removed the requested items.") ]
   <-> get_prop (VObj a) "items_added" = VBool true
       /\ get_prop (VObj a) "items_removed" = VBool true)
  /\ (bt_return (beforeTool "modify_cart" args s) <> None ->
      bt_return (beforeTool "modify_cart" args s) = Some MODIFY_CART_RESULT)
  /\ (forall flag, get_prop (VObj a) "items_added" = VStr flag ->
      bt_return (beforeTool "modify_cart" args s) = None).
Proof.
  intros a Hg. rewrite (beforeTool_modify_cart args s Hg). fold a.
  split; [|split].
  - destruct (strict_eq (get_prop (VObj a) "items_added") (VBool true)) eqn:E1;
      destruct (strict_eq (get_prop (VObj a) "items_removed") (VBool true)) eqn:E2;
      cbn [andb]; split; try discriminate; try reflexivity.
    + intros _. split; now apply strict_eq_true_bool.
    + intros [_ H]. apply strict_eq_true_bool in H. congruence.
    + intros [H _]. apply strict_eq_true_bool in H. congruence.
    + intros [H _]. apply strict_eq_true_bool in H. congruence.
  - destruct (strict_eq _ _ && strict_eq _ _); [reflexivity|congruence].
  - intros flag ->. reflexivity.
Qed.

(** X14: what [modifyCart] answers, handed to [beforeTool] under the name
    modify_cart, is short-circuited into the canned confirmation in every
    session, with or without a bound profile, since the answer carries both
    flags and no customer_id; under the registered name modifyCart it is
    not. *)
Theorem modifyCart_answer_is_short_circuited customerId itemsToAdd itemsToRemove
    (s : State) :
  bt_return (beforeTool "modify_cart"
               (modifyCart customerId itemsToAdd itemsToRemove) s)
  = Some MODIFY_CART_RESULT
  /\ bt_return (beforeTool "modifyCart"
                  (modifyCart customerId itemsToAdd itemsToRemove) s)
     = None.
Proof.
  rewrite !beforeTool_unfold. split; reflexivity.
Qed.

(** X15: edge values of the discount short-circuit, for arguments that
    pass the guard: without a value the tool runs; [null], [false] and
    [true] count as 0, 0 and 1 and are approved; a number is approved
    exactly when it is at most 10, negative numbers included. *)
Theorem auto_approval_edge_values (args : obj) (s : State) :
  let a := bt_args (beforeTool "sync_ask_for_approval" args s) in
  guard_verdict a s = (true, None) ->
  (get_prop (VObj a) "value" = VUndefined ->
   bt_return (beforeTool "sync_ask_for_approval" args s) = None)
  /\ (get_prop (VObj a) "value" = VNull ->
      bt_return (beforeTool "sync_ask_for_approval" args s)
      = Some APPROVED_RESULT)
  /\ (forall b, get_prop (VObj a) "value" = VBool b ->
      bt_return (beforeTool "sync_ask_for_approval" args s)
      = Some APPROVED_RESULT)
  /\ (forall q, get_prop (VObj a) "value" = VNum q ->
      (bt_return (beforeTool "sync_ask_for_approval" args s)
       = Some APPROVED_RESULT <-> (q <= 10)%Q)
      /\ (bt_return (beforeTool "sync_ask_for_approval" args s) = None
          <-> (10 < q)%Q)).
Proof.
  intros a Hg. rewrite (beforeTool_approval args s Hg). fold a.
  split; [|split; [|split]].
  - intros ->. reflexivity.
  - intros ->. reflexivity.
  - intros b ->. now destruct b.
  - intros q ->. unfold Number_le. simpl.
    destruct (Qle_bool q 10) eqn:E.
    + apply Qle_bool_iff in E. split; split; try discriminate; auto.
      intros Hlt. exfalso. exact (Qlt_not_le _ _ Hlt E).
    + split; split; try discriminate; try reflexivity.
      * intros Hle. apply Qle_bool_iff in Hle. congruence.
      * intros _. apply Qnot_le_lt. intros Hle.
        apply Qle_bool_iff in Hle. congruence.
Qed.

(** X16: under the names the agent registers its tools with, the hooks do
    nothing beyond the guard: for arguments that pass it [beforeTool] has no
    answer, so the tool always runs, and [afterTool] writes no line,
    whatever the result. *)
Theorem registered_tools_are_not_short_circuited tool_name (args : obj)
    (s : State) (toolResponse : jsval) :
  tool_name ∈ registered_tools ->
  (guard_verdict (bt_args (beforeTool tool_name args s)) s = (true, None) ->
   bt_return (beforeTool tool_name args s) = None)
  /\ at_console (afterTool tool_name args s toolResponse) = [].
Proof.
  intros Hin. split; [now apply beforeTool_registered_tool|].
  assert (Hs : String.eqb tool_name "sync_ask_for_approval" = false).
  { apply String.eqb_neq. intros ->.
    now apply guarded_names_not_registered in Hin. }
  assert (Ha : String.eqb tool_name "approve_discount" = false).
  { apply String.eqb_neq. intros ->.
    now apply guarded_names_not_registered in Hin. }
  unfold afterTool. simpl. now rewrite Hs, Ha.
Qed.
End BeforeToolProperties.

Lemma modify_cart_short_circuit_witness :
  bt_return (@beforeTool Reference.runtime "modify_cart"
               [ ("customer_id", VStr "123"); ("items_added", VBool true);
                 ("items_removed", VBool true) ] bound_session)
  = Some MODIFY_CART_RESULT
  /\ bt_return (@beforeTool Reference.runtime "modify_cart"
                  [ ("items_added", VStr "TRUE"); ("items_removed", VBool true) ]
                  ∅)
     = None.
Proof.
  split.
  - destruct (@modify_cart_short_circuit Reference.runtime
                [ ("customer_id", VStr "123"); ("items_added", VBool true);
                  ("items_removed", VBool true) ] bound_session) as [H _].
    + vm_compute. reflexivity.
    + apply H. split; reflexivity.
  - destruct (@modify_cart_short_circuit Reference.runtime
                [ ("items_added", VStr "TRUE"); ("items_removed", VBool true) ]
                ∅) as (_ & _ & H).
    + reflexivity.
    + apply (H "true"). reflexivity.
Defined.

Lemma auto_approval_edge_values_witness :
  bt_return (@beforeTool Reference.runtime "sync_ask_for_approval"
               [ ("value", VNull) ] ∅) = Some APPROVED_RESULT
  /\ bt_return (@beforeTool Reference.runtime "sync_ask_for_approval"
                  [ ("reason", VStr "none given") ] ∅) = None
  /\ bt_return (@beforeTool Reference.runtime "sync_ask_for_approval"
                  [ ("value", VNum (-5)%Q) ] ∅) = Some APPROVED_RESULT.
Proof.
  split; [|split].
  - destruct (@auto_approval_edge_values Reference.runtime
                [ ("value", VNull) ] ∅ eq_refl) as (_ & H & _).
    apply H. reflexivity.
  - destruct (@auto_approval_edge_values Reference.runtime
                [ ("reason", VStr "none given") ] ∅ eq_refl) as (H & _).
    apply H. reflexivity.
  - destruct (@auto_approval_edge_values Reference.runtime
                [ ("value", VNum (-5)%Q) ] ∅ eq_refl) as (_ & _ & _ & H).
    destruct (H (-5)%Q eq_refl) as [[_ H'] _]. apply H'.
    vm_compute. discriminate.
Defined.

Lemma registered_tools_are_not_short_circuited_witness :
  bt_return (@beforeTool Reference.runtime "syncAskForApproval"
               (discount_args 5) bound_session) = None
  /\ at_console (afterTool "approveDiscount" [] ∅
                   (VObj [ ("status", VStr "ok") ])) = [].
Proof.
  destruct (@registered_tools_are_not_short_circuited Reference.runtime
              "syncAskForApproval" (discount_args 5) bound_session VNull)
    as [H _].
  { unfold registered_tools. do 2 right. left. }
  destruct (@registered_tools_are_not_short_circuited Reference.runtime
              "approveDiscount" [] ∅ (VObj [ ("status", VStr "ok") ]))
    as [_ H'].
  { unfold registered_tools. right. left. }
  split; [apply H; vm_compute; reflexivity|exact H'].
Defined.

(** ** Post-dispatch hook and the discount tools *)

(** X17: fed with what the discount tools answer, [afterTool] writes the
    cart line after [approveDiscount] exactly when the value is at most 10,
    after [syncAskForApproval] for every value, and after the canned
    approval of [beforeTool]; it never writes it for an error payload,
    whatever the tool. *)
Theorem cart_line_follows_the_approval (args : obj) (s : State) :
  (forall discountType value reason,
     ((value <= 10)%Q ->
      at_console (afterTool "approve_discount" args s
                    (VObj (approveDiscount discountType value reason)))
      = [ CART_LINE ])
     /\ ((10 < value)%Q ->
         at_console (afterTool "approve_discount" args s
                       (VObj (approveDiscount discountType value reason)))
         = []))
  /\ (forall discountType value reason,
        at_console (afterTool "sync_ask_for_approval" args s
                      (VObj (syncAskForApproval discountType value reason)))
        = [ CART_LINE ])
  /\ at_console (afterTool "sync_ask_for_approval" args s (VObj APPROVED_RESULT))
     = [ CART_LINE ]
  /\ (forall tool_name err,
        at_console (afterTool tool_name args s (VObj [ ("error", VStr err) ]))
        = []).
Proof.
  split; [|split; [reflexivity|split; [reflexivity|]]].
  - intros discountType value reason. unfold approveDiscount. split.
    + intros Hle. apply Qlt_bool_false_iff in Hle. now rewrite Hle.
    + intros Hlt. apply Qlt_bool_iff in Hlt. now rewrite Hlt.
  - intros tool_name err. unfold afterTool. simpl.
    now rewrite !andb_false_r.
Qed.

Lemma cart_line_follows_the_approval_witness :
  at_console (afterTool "approve_discount" [] ∅
                (VObj (approveDiscount "percentage" 10 "loyal customer")))
  = [ CART_LINE ]
  /\ at_console (afterTool "approve_discount" [] ∅
                   (VObj (approveDiscount "percentage" 11 "loyal customer")))
     = [].
Proof.
  destruct (cart_line_follows_the_approval [] ∅) as [H _].
  split.
  - apply (H "percentage" 10%Q "loyal customer"). vm_compute. discriminate.
  - apply (H "percentage" 11%Q "loyal customer"). vm_compute. reflexivity.
Defined.

(** X18: [generateQrCode] refuses exactly a percentage discount (type
    percentage or the empty string) above 10 and a fixed discount above 20.
    A request that is not refused is answered with the code and the expiry
    day when the calendar has a date that many days ahead, and otherwise
    the [RangeError] of [toISOString()] escapes.  A discount type the
    function does not know is never refused, and neither is a value that
    [approveDiscount] accepts, whatever the type. *)
Theorem generateQrCode_limits customerId (discountValue : Q) discountType
    (expirationDays : Q) (expirationDate : Q -> option string) :
  let answer :=
    generateQrCode customerId discountValue discountType expirationDays
      expirationDate in
  let issued :=
    match expirationDate expirationDays with
    | Some day =>
        QrCode [ ("status", VStr "success");
                 ("qr_code_data", VStr "MOCK_QR_CODE_DATA");
                 ("expiration_date", VStr day) ]
    | None => QrRangeError
    end in
  (answer = QrRefused QR_PERCENTAGE_MESSAGE
   <-> (discountType = EmptyString \/ discountType = "percentage"%string)
       /\ (10 < discountValue)%Q)
  /\ (answer = QrRefused QR_FIXED_MESSAGE
      <-> discountType = "fixed"%string /\ (20 < discountValue)%Q)
  /\ (answer = issued \/ answer = QrRefused QR_PERCENTAGE_MESSAGE
      \/ answer = QrRefused QR_FIXED_MESSAGE)
  /\ (discountType <> EmptyString -> discountType <> "percentage"%string ->
      discountType <> "fixed"%string -> answer = issued)
  /\ (forall reason,
        approveDiscount discountType discountValue reason = [ ("status", VStr "ok") ] ->
        answer = issued).
Proof.
  intros answer issued. subst answer issued.
  unfold generateQrCode, approveDiscount.
  destruct (expirationDate expirationDays) as [day|];
  destruct (Qlt_bool 10 discountValue) eqn:E10;
    destruct (Qlt_bool 20 discountValue) eqn:E20;
    destruct (String.eqb_spec discountType EmptyString) as [He|He];
    destruct (String.eqb_spec discountType "percentage") as [Hp|Hp];
    destruct (String.eqb_spec discountType "fixed") as [Hf|Hf];
    try (subst; discriminate);
    cbn [orb andb];
    try apply Qlt_bool_iff in E10; try apply Qlt_bool_iff in E20;
    try apply Qlt_bool_false_iff in E10; try apply Qlt_bool_false_iff in E20;
    repeat split; intros;
    repeat match goal with
           | H : _ /\ _ |- _ => destruct H
           | H : _ \/ _ |- _ => destruct H
           end;
    try discriminate; try congruence; auto;
    try (exfalso; lra).
Qed.

Lemma generateQrCode_limits_witness :
  generateQrCode "123" 15 "flat" 30 sample_calendar
  = QrCode [ ("status", VStr "success");
             ("qr_code_data", VStr "MOCK_QR_CODE_DATA");
             ("expiration_date", VStr "2026-01-31") ]
  /\ generateQrCode "123" 5 "percentage" 1000000000 sample_calendar
     = QrRangeError
  /\ generateQrCode "123" 15 "percentage" 30 sample_calendar
     = QrRefused QR_PERCENTAGE_MESSAGE.
Proof.
  split; [|split].
  - destruct (generateQrCode_limits "123" 15%Q "flat" 30%Q sample_calendar)
      as (_ & _ & _ & H & _).
    apply H; discriminate.
  - destruct (generateQrCode_limits "123" 5%Q "percentage" 1000000000%Q
                sample_calendar) as (_ & _ & _ & _ & H).
    apply (H "loyal customer"). reflexivity.
  - destruct (generateQrCode_limits "123" 15%Q "percentage" 30%Q
                sample_calendar) as (H & _).
    apply H. split; [now right|vm_compute; reflexivity].
Defined.

(** ** The other tools and the configuration *)

(** X19: the recommendations depend on the plant type alone, and on it
    only up to letter case: the customer id plays no part, two spellings of
    one plant type get the same answer, the petunia list is returned
    exactly when the lowercased type is petunias, and the answer always
    holds two recommendations. *)
Theorem recommendations_ignore_case_and_customer plantType customerId :
  (forall customerId', getProductRecommendations plantType customerId'
                       = getProductRecommendations plantType customerId)
  /\ getProductRecommendations (toLowerCase plantType) customerId
     = getProductRecommendations plantType customerId
  /\ (forall plantType', toLowerCase plantType' = toLowerCase plantType ->
      getProductRecommendations plantType' customerId
      = getProductRecommendations plantType customerId)
  /\ (getProductRecommendations plantType customerId
      = getProductRecommendations "petunias" customerId
      <-> toLowerCase plantType = "petunias"%string)
  /\ exists r1 r2,
       getProductRecommendations plantType customerId
       = [ ("recommendations", VArr [ r1; r2 ]) ].
Proof.
  unfold getProductRecommendations. split; [reflexivity|].
  split; [now rewrite toLowerCase_idem|].
  split; [now intros plantType' ->|]. split.
  - change (toLowerCase "petunias") with "petunias"%string.
    change (String.eqb "petunias" "petunias") with true. cbn iota.
    destruct (String.eqb_spec (toLowerCase plantType) "petunias") as [E|E];
      split; auto; try discriminate. congruence.
  - destruct (String.eqb (toLowerCase plantType) "petunias"); eauto.
Qed.

Lemma recommendations_ignore_case_and_customer_witness :
  getProductRecommendations "PeTuNiAs" "999"
  = getProductRecommendations "petunias" "123"
  /\ getProductRecommendations "Roses" "123"
     <> getProductRecommendations "petunias" "123".
Proof.
  destruct (recommendations_ignore_case_and_customer "petunias" "123")
    as (_ & _ & Hcase & _).
  destruct (recommendations_ignore_case_and_customer "Roses" "123")
    as (_ & _ & _ & Hiff & _).
  destruct (recommendations_ignore_case_and_customer "PeTuNiAs" "123")
    as (Hcust & _).
  split.
  - rewrite (Hcust "999"). apply (Hcase "PeTuNiAs"). reflexivity.
  - intros H. apply Hiff in H. discriminate H.
Defined.

(** X20: [getEnv] answers with the variable exactly when it is set to a
    non-empty string; an unset variable and one set to the empty string
    both give the default, so with a non-empty default the answer is never
    empty, and no field of the configuration is ever empty. *)
Theorem getEnv_falls_back_on_empty (env : gmap string string)
    (key defaultValue : string) :
  (forall v, env !! key = Some v -> v <> EmptyString ->
     getEnv env key defaultValue = v)
  /\ (env !! key = None \/ env !! key = Some EmptyString ->
      getEnv env key defaultValue = defaultValue)
  /\ (defaultValue <> EmptyString -> getEnv env key defaultValue <> EmptyString)
  /\ CLOUD_PROJECT (Config_new env) <> EmptyString
  /\ CLOUD_LOCATION (Config_new env) <> EmptyString
  /\ GENAI_USE_VERTEXAI (Config_new env) <> EmptyString
  /\ API_KEY (Config_new env) <> EmptyString.
Proof.
  assert (Hne : forall (e : gmap string string) k d,
             d <> EmptyString -> getEnv e k d <> EmptyString).
  { intros e k d Hd. unfold getEnv. destruct (e !! k) as [v|]; [|exact Hd].
    destruct (String.eqb_spec v EmptyString); assumption. }
  split; [|split; [|split; [apply Hne|]]].
  - intros v Hv Hnev. unfold getEnv. rewrite Hv.
    apply String.eqb_neq in Hnev. now rewrite Hnev.
  - intros [H|H]; unfold getEnv; now rewrite H.
  - repeat split; apply Hne; discriminate.
Qed.

Lemma getEnv_falls_back_on_empty_witness :
  CLOUD_PROJECT (Config_new {[ "GOOGLE_CLOUD_PROJECT" := "garden-prod" ]})
  = "garden-prod"
  /\ CLOUD_PROJECT (Config_new {[ "GOOGLE_CLOUD_PROJECT" := EmptyString ]})
     = "my_project".
Proof.
  split.
  - destruct (getEnv_falls_back_on_empty
                {[ "GOOGLE_CLOUD_PROJECT" := "garden-prod" ]}
                "GOOGLE_CLOUD_PROJECT" "my_project") as (H & _).
    apply H; [apply lookup_singleton_eq|discriminate].
  - destruct (getEnv_falls_back_on_empty
                {[ "GOOGLE_CLOUD_PROJECT" := EmptyString ]}
                "GOOGLE_CLOUD_PROJECT" "my_project") as (_ & H & _).
    apply H. right. apply lookup_singleton_eq.
Defined.

Lemma before_dash_no_dash r : mentions "-" r = false -> before_dash r = r.
Proof.
  induction r as [|c r IH]; simpl; [reflexivity|].
  destruct (Ascii.eqb c "-"); [discriminate|]. simpl. intros H. now rewrite IH.
Qed.

Lemma before_dash_split a b :
  mentions "-" a = false -> before_dash (a ++ String "-" b) = a.
Proof.
  induction a as [|c a IH]; simpl; [reflexivity|].
  destruct (Ascii.eqb c "-"); [discriminate|]. simpl. intros H. now rewrite IH.
Qed.

Lemma before_dash_clean r : mentions "-" (before_dash r) = false.
Proof.
  induction r as [|c r IH]; simpl; [reflexivity|].
  destruct (Ascii.eqb c "-") eqn:E; [reflexivity|]. simpl. now rewrite E.
Qed.

(** X21: the confirmation time of a planting appointment is the date, a
    space, the start of the time range and :00, where the start is what
    precedes the first dash of the range: the whole range when it has no
    dash, nothing when it begins with one; date and range themselves are
    handed back as they came. *)
Theorem confirmation_time_uses_the_start customerId date timeRange details
    appointment_id :
  let answer :=
    VObj (schedulePlantingService customerId date timeRange details
            appointment_id) in
  (exists start,
     get_prop answer "confirmation_time"
     = VStr (date ++ " " ++ start ++ ":00")%string
     /\ mentions "-" start = false
     /\ (mentions "-" timeRange = false -> start = timeRange)
     /\ (forall a b, timeRange = (a ++ String "-" b)%string ->
         mentions "-" a = false -> start = a))
  /\ get_prop answer "date" = VStr date
  /\ get_prop answer "time" = VStr timeRange
  /\ get_prop answer "status" = VStr "success"
  /\ get_prop answer "appointment_id" = VStr appointment_id.
Proof.
  intros answer. subst answer. split; [|repeat split].
  exists (before_dash timeRange). split; [reflexivity|].
  split; [apply before_dash_clean|]. split.
  - apply before_dash_no_dash.
  - intros a b -> Ha. now apply before_dash_split.
Qed.

Lemma confirmation_time_uses_the_start_witness :
  get_prop (VObj (schedulePlantingService "123" "2024-07-29" "9-12"
                    "Planting Petunias" "id-1")) "confirmation_time"
  = VStr "2024-07-29 9:00".
Proof.
  destruct (confirmation_time_uses_the_start "123" "2024-07-29" "9-12"
              "Planting Petunias" "id-1") as ((start & Hc & _ & _ & Hs) & _).
  rewrite Hc. rewrite (Hs "9" "12" eq_refl eq_refl). reflexivity.
Defined.
